(** * Restaurant client: order reconciliation, POS payment, session, guards

  A shallow embedding of the client-side logic of the restaurant front end:
  the realtime handlers that keep the chef, waiter and POS working sets in
  step with the order lifecycle, the POS tax computation, the session
  helpers, the shared HTTP client, the route table and the admin views.

  Conventions.
  - Server-assigned identifiers and table numbers are integers ([Z]).
  - Prices, quantities, percentages and timestamps are JavaScript numbers,
    that is IEEE-754 binary64 values: the kernel's primitive [float].
  - React state is passed explicitly: a handler is a function from the
    previous state to the next one, as the [setState(prev => ...)] updaters
    of the source are.
  - Toasts are not part of any state and are left out; console output is
    kept for the API clients, whose contract is to log and rethrow. *)

From Stdlib Require Import ZArith List String Ascii Bool Floats Lia.
From stdpp Require Import base gmap strings pretty.
Import ListNotations.

(** ** Data model (src/lib/api/orders.ts) *)

Inductive OrderStatus :=
  PENDING | PREPARING | READY | DELIVERED | COMPLETED | CANCELLED.

(** The [table] object of an order.  The REST records carry [tableNumber];
  the realtime payloads are untyped and the chef handler reads [number],
  so both are kept, each possibly absent. *)
Record TableInfo := {
  table_id : Z;
  tableNumber : option Z;
  number : option Z
}.

Record OrderItem := {
  line_id : Z;
  itemId : Z;
  quantity : float;
  price : float
}.

Inductive PaymentMethod := cash | card.

Module PaymentDetails.
Record t := mk {
  paymentMethod : PaymentMethod;
  amountPaid : float;
  notes : option string;
  taxPercentage : option float;
  taxAmount : option float;
  subtotal : option float
}.
End PaymentDetails.

Module WaiterOrder.
Record t := mk {
  id : Z;
  tableId : Z;
  table : option TableInfo;
  status : OrderStatus;
  total : float;
  orderItems : list OrderItem;
  createdAt : string;
  updatedAt : string;
  paymentDetails : option PaymentDetails.t
}.
End WaiterOrder.

(** [orders.some(order => order.id === i)] *)
Definition some_id (i : Z) (orders : list WaiterOrder.t) : bool :=
  existsb (fun order => WaiterOrder.id order =? i)%Z orders.

(** [orders.filter(order => order.id !== i)] *)
Definition filter_out_id (i : Z) (orders : list WaiterOrder.t) : list WaiterOrder.t :=
  List.filter (fun order => negb (WaiterOrder.id order =? i)%Z) orders.

(** [orders.map(order => order.id === u.id ? u : order)] *)
Definition replace_by_id (u : WaiterOrder.t) (orders : list WaiterOrder.t) : list WaiterOrder.t :=
  map (fun order => if (WaiterOrder.id order =? WaiterOrder.id u)%Z then u else order) orders.

(** How many stored records carry the id [i]. *)
Definition count_id (i : Z) (orders : list WaiterOrder.t) : nat :=
  length (List.filter (fun order => WaiterOrder.id order =? i)%Z orders).

(** A template literal [`${n}`] over a possibly missing number. *)
Definition template_number (n : option Z) : string :=
  match n with
  | Some z => pretty z
  | None => "undefined"
  end.

(** ** JavaScript values

    Untyped data of the source ([any], a parsed JSON document, an error
    payload) is a [Js.value]. *)

Module Js.

#[warnings="-register-all"]
Inductive value :=
| Undefined
| Null
| Bool (b : bool)
| Number (x : float)
| Str (s : string)
| Array (items : list value)
| Object (fields : list (string * value)).

(** The own property [k] of an object literal; of two entries with one key
    the later one counts, as in [JSON.parse]. *)
Fixpoint lookup_field (k : string) (fields : list (string * value)) : option value :=
  match fields with
  | [] => None
  | (k', v) :: rest =>
      match lookup_field k rest with
      | Some v' => Some v'
      | None => if String.eqb k' k then Some v else None
      end
  end.

(** [v.k]: a [TypeError] ([None]) on [undefined] and [null]; [undefined] when
    the property is missing.  The keys read by the source ([message], [exp],
    [halfPrice], [fullPrice], [price]) are not properties of the built-in
    prototypes, so a primitive or an array answers [undefined]. *)
Definition get (v : value) (k : string) : option value :=
  match v with
  | Undefined | Null => None
  | Object fields => Some (default Undefined (lookup_field k fields))
  | _ => Some Undefined
  end.

(** [v?.k] *)
Definition opt_get (v : value) (k : string) : value :=
  default Undefined (get v k).

(** [v === "s"] *)
Definition strict_eq_str (v : value) (s : string) : bool :=
  match v with
  | Str s' => String.eqb s' s
  | _ => false
  end.

(** [!v] *)
Definition falsy (v : value) : bool :=
  match v with
  | Undefined | Null => true
  | Bool b => negb b
  | Number x => (x =? 0)%float || PrimFloat.is_nan x
  | Str s => String.eqb s ""
  | Array _ | Object _ => false
  end.

(** [v !== undefined && v !== null] *)
Definition present (v : value) : bool :=
  match v with
  | Undefined | Null => false
  | _ => true
  end.

(** [typeof v === 'number'] *)
Definition is_number (v : value) : bool :=
  match v with
  | Number _ => true
  | _ => false
  end.

End Js.

(** ** Promises and the shared HTTP client (src/lib/api/client.ts) *)

Record HttpResponse := {
  status : Z;
  data : Js.value
}.

(** The error an HTTP call is rejected with; [response] is missing when the
    request never got an answer (network failure). *)
Record AxiosError := {
  response : option HttpResponse;
  reason : string
}.

Inductive Outcome (A : Type) :=
| Resolved (v : A)
| Rejected (e : AxiosError).
Arguments Resolved {A} v.
Arguments Rejected {A} e.

(** An [async] function: what it wrote to the console, and how its promise
    settles. *)
Definition Async (A : Type) : Type := list string * Outcome A.

Definition ret {A} (v : A) : Async A := ([], Resolved v).

Definition throw {A} (e : AxiosError) : Async A := ([], Rejected e).

Definition bind {A B} (m : Async A) (k : A -> Async B) : Async B :=
  match m with
  | (log, Resolved v) => let (log', r) := k v in (log ++ log', r)
  | (log, Rejected e) => (log, Rejected e)
  end.

(** [try { body } catch (error) { handler }] *)
Definition try_catch {A} (body : Async A) (handler : AxiosError -> Async A) : Async A :=
  match body with
  | (log, Resolved v) => (log, Resolved v)
  | (log, Rejected e) => let (log', r) := handler e in (log ++ log', r)
  end.

Definition console_error (msg : string) : Async unit := ([msg], Resolved tt).

Definition await {A} (o : Outcome A) : Async A := ([], o).

Definition settles {A} (m : Async A) : Outcome A := snd m.

#[global] Instance Async_ret : MRet Async := @ret.
#[global] Instance Async_bind : MBind Async := fun A B k m => bind m k.

Inductive Method := GET | POST | PATCH | PUT | DELETE.

Inductive Body :=
| NoBody
| StatusBody (status : OrderStatus)
| CompleteOrderBody (orderId : Z) (details : PaymentDetails.t).

(** The network as seen through [apiClient]: for a request, the data of the
    response or the error the call is rejected with. *)
Definition Transport (D : Type) : Type := Method -> string -> Body -> Outcome D.

(** ** Orders client (src/lib/api/orders.ts) *)

Definition status_name (s : OrderStatus) : string :=
  match s with
  | PENDING => "PENDING"
  | PREPARING => "PREPARING"
  | READY => "READY"
  | DELIVERED => "DELIVERED"
  | COMPLETED => "COMPLETED"
  | CANCELLED => "CANCELLED"
  end.

Record WaiterDashboardOrders := {
  activeOrders : list WaiterOrder.t;
  completedOrders : list WaiterOrder.t
}.

Record CompleteOrderResult := {
  result_order : WaiterOrder.t;
  result_message : string
}.

Module ordersApi.

Definition getAll (apiClient : Transport (list WaiterOrder.t)) : Async (list WaiterOrder.t) :=
  try_catch
    (response_data ← await (apiClient GET "/orders" NoBody);
     mret response_data)
    (fun error =>
       console_error "Error fetching orders:";;
       throw error).

Definition getById (apiClient : Transport WaiterOrder.t) (orderId : Z) : Async WaiterOrder.t :=
  try_catch
    (response_data ← await (apiClient GET ("/orders/" +:+ pretty orderId) NoBody);
     mret response_data)
    (fun error =>
       console_error ("Error fetching order " +:+ pretty orderId +:+ ":");;
       throw error).

Definition getByStatus (apiClient : Transport (list WaiterOrder.t)) (status : OrderStatus)
  : Async (list WaiterOrder.t) :=
  try_catch
    (response_data ← await (apiClient GET ("/orders/status/" +:+ status_name status) NoBody);
     mret response_data)
    (fun error =>
       console_error ("Error fetching orders with status " +:+ status_name status +:+ ":");;
       throw error).

Definition updateStatus (apiClient : Transport WaiterOrder.t) (orderId : Z)
    (status : OrderStatus) : Async WaiterOrder.t :=
  try_catch
    (response_data ←
       await (apiClient PATCH ("/orders/" +:+ pretty orderId +:+ "/status") (StatusBody status));
     mret response_data)
    (fun error =>
       console_error ("Error updating order " +:+ pretty orderId +:+ " status:");;
       throw error).

Definition getWaiterDashboardOrders (apiClient : Transport WaiterDashboardOrders)
  : Async WaiterDashboardOrders :=
  try_catch
    (response_data ← await (apiClient GET "/waiter/dashboard/orders" NoBody);
     mret response_data)
    (fun error =>
       console_error "Error fetching waiter dashboard orders:";;
       throw error).

Definition getDeliveredOrders (apiClient : Transport (list WaiterOrder.t))
  : Async (list WaiterOrder.t) :=
  try_catch
    (response_data ← await (apiClient GET "/orders/pos/delivered" NoBody);
     mret response_data)
    (fun error =>
       console_error "Error fetching delivered orders for POS:";;
       mret []).

Definition completeOrder (apiClient : Transport CompleteOrderResult) (orderId : Z)
    (paymentDetails : PaymentDetails.t) : Async CompleteOrderResult :=
  try_catch
    (response_data ←
       await (apiClient POST "/orders/pos/complete" (CompleteOrderBody orderId paymentDetails));
     mret response_data)
    (fun error =>
       console_error "Error completing order:";;
       throw error).

End ordersApi.

(** ** Platform built-ins

    The browser functions the source calls and this development does not
    re-implement.  [None] stands for the exception the built-in throws:
    [atob] on text that is not base64, [JSON.parse] on text that is not
    JSON, and the conversion of an object or array to a string or to a
    number, which throws a [TypeError] when the object has no callable
    [toString] or [valueOf] that answers a primitive (an own data property
    named [toString] is enough), or whatever such a method throws. *)

Record Platform := {
  atob : string -> option string;
  JSON_parse : string -> option Js.value;
  parseFloat : string -> float;
  StringToNumber : string -> float;
  NumberToString : float -> string;
  ObjectToString : Js.value -> option string;
  ObjectToNumber : Js.value -> option float
}.

(** [String(v)]; [None] when the conversion throws. *)
Definition ToString (js : Platform) (v : Js.value) : option string :=
  match v with
  | Js.Undefined => Some "undefined"
  | Js.Null => Some "null"
  | Js.Bool true => Some "true"
  | Js.Bool false => Some "false"
  | Js.Number x => Some (NumberToString js x)
  | Js.Str s => Some s
  | Js.Array _ | Js.Object _ => ObjectToString js v
  end.

(** [ToNumber(v)], for the comparison of a value with a number; [None] when
    the conversion throws. *)
Definition ToNumber (js : Platform) (v : Js.value) : option float :=
  match v with
  | Js.Undefined => Some nan
  | Js.Null => Some 0%float
  | Js.Bool true => Some 1%float
  | Js.Bool false => Some 0%float
  | Js.Number x => Some x
  | Js.Str s => Some (StringToNumber js s)
  | Js.Array _ | Js.Object _ => ObjectToNumber js v
  end.

(** [v < t] for a number [t]; [None] when the conversion of [v] throws. *)
Definition js_lt (js : Platform) (v : Js.value) (t : float) : option bool :=
  x ← ToNumber js v;
  Some (x <? t)%float.

(** ** Browser state: storage and location *)

(** [navigations] lists the assignments to [window.location.href], the most
    recent first. *)
Record Browser := {
  window_defined : bool;
  localStorage : gmap string string;
  navigations : list string
}.

Definition getItem (k : string) (b : Browser) : option string :=
  localStorage b !! k.

Definition removeItem (k : string) (b : Browser) : Browser :=
  {| window_defined := window_defined b;
     localStorage := delete k (localStorage b);
     navigations := navigations b |}.

Definition set_location_href (href : string) (b : Browser) : Browser :=
  {| window_defined := window_defined b;
     localStorage := localStorage b;
     navigations := href :: navigations b |}.

(** ** Authentication helpers (AuthHelpers) *)

Definition logout (b : Browser) : Browser :=
  if window_defined b then
    set_location_href "/login"
      (removeItem "auth-role" (removeItem "auth-token" b))
  else b.

(** [s.split(sep)] for a one-character separator. *)
Fixpoint split_from (sep : ascii) (s : string) (current : string) : list string :=
  match s with
  | EmptyString => [current]
  | String c rest =>
      if Ascii.eqb c sep then current :: split_from sep rest ""
      else split_from sep rest (current +:+ String c "")
  end.

Definition split (sep : ascii) (s : string) : list string :=
  split_from sep s "".

(** The body of the [try] block of [isTokenExpired]; [None] when it throws. *)
Definition isTokenExpired_try (js : Platform) (b : Browser) (now : float) : option bool :=
  match getItem "auth-token" b with
  | None => Some true
  | Some token =>
      if String.eqb token "" then Some true
      else
        match split "." token !! 1%nat with
        | None => Some true
        | Some payload =>
            if String.eqb payload "" then Some true
            else
              raw ← atob js payload;
              decoded ← JSON_parse js raw;
              exp ← Js.get decoded "exp";
              let currentTime := (now / 1000)%float in
              js_lt js exp currentTime
        end
  end.

(** [isTokenExpired()]; [now] is [Date.now()]. *)
Definition isTokenExpired (js : Platform) (b : Browser) (now : float) : bool :=
  default true (isTokenExpired_try js b now).

Definition validateAuth (js : Platform) (b : Browser) (now : float) : bool :=
  match getItem "auth-token" b with
  | None => false
  | Some token =>
      if String.eqb token "" then false
      else negb (isTokenExpired js b now)
  end.

(** ** Response interceptor of the shared client (src/lib/api/client.ts) *)

Definition no_role_message : string := "User has not been assigned a role".

(** The rejection handler installed with
    [apiClient.interceptors.response.use]. *)
Definition response_interceptor {A} (error : AxiosError) (b : Browser)
  : Browser * Outcome A :=
  let b' :=
    match response error with
    | Some response =>
        if (status response =? 401)%Z then
          if negb (Js.strict_eq_str (Js.opt_get (data response) "message") no_role_message)
          then logout b
          else b
        else b
    | None => b
    end in
  (b', Rejected error).

(** ** Chef preparing view (ChefOrdersPage) *)

Module ChefOrdersPage.

(** [interface DisplayOrder extends WaiterOrder { tableName: string }] *)
Record DisplayOrder := {
  order : WaiterOrder.t;
  tableName : string
}.

Definition display_id (d : DisplayOrder) : Z := WaiterOrder.id (order d).

(** The transformation applied to a realtime payload. *)
Definition displayOfEvent (newOrder : WaiterOrder.t) : DisplayOrder :=
  {| order := newOrder;
     tableName :=
       match WaiterOrder.table newOrder with
       | Some t => "Table " +:+ template_number (number t)
       | None => "Table ID: " +:+ pretty (WaiterOrder.tableId newOrder)
       end |}.

(** The transformation applied to a fetched record. *)
Definition displayOfFetch (o : WaiterOrder.t) : DisplayOrder :=
  {| order := o;
     tableName :=
       match WaiterOrder.table o with
       | Some t => "Table " +:+ template_number (tableNumber t)
       | None => "Table ID: " +:+ pretty (WaiterOrder.tableId o)
       end |}.

(** [fetchPreparingOrders], on a successful [getByStatus("PREPARING")]. *)
Definition fetchPreparingOrders (preparingOrders : list WaiterOrder.t)
  : list DisplayOrder :=
  map displayOfFetch preparingOrders.

(** The listener of ["order:status-preparing"]:
    [setOrders(prevOrders => [...prevOrders, displayOrder])]. *)
Definition on_status_preparing (newOrder : WaiterOrder.t)
    (prevOrders : list DisplayOrder) : list DisplayOrder :=
  prevOrders ++ [displayOfEvent newOrder].

(** The local update of [markOrderAsReady] after the server accepted it. *)
Definition markOrderAsReady (orderId : Z) (prevOrders : list DisplayOrder)
  : list DisplayOrder :=
  List.filter (fun d => negb (display_id d =? orderId)%Z) prevOrders.

Definition occurrences (i : Z) (l : list DisplayOrder) : nat :=
  length (List.filter (fun d => display_id d =? i)%Z l).

(** [formatTimeElapsed(timestamp)] for a valid timestamp; [orderTime] and
    [now] are the two [getTime()] values, whole milliseconds. *)
Definition formatTimeElapsed (orderTime now : Z) : string :=
  let diffInMinutes := ((now - orderTime) / (1000 * 60))%Z in
  if (diffInMinutes <? 1)%Z then "Just now"
  else if (diffInMinutes =? 1)%Z then "1 minute ago"
  else if (diffInMinutes <? 60)%Z then pretty diffInMinutes +:+ " minutes ago"
  else
    let hours := (diffInMinutes / 60)%Z in
    if (hours =? 1)%Z then "1 hour ago"
    else pretty hours +:+ " hours ago".

End ChefOrdersPage.

(** ** Waiter order table (OrdersPage): the same event, guarded *)

Module WaiterOrdersPage.
Import ChefOrdersPage.

Definition displayOfEvent := ChefOrdersPage.displayOfEvent.

(** The listener of ["order:status-preparing"] in the waiter table:
    prepend when no record has the id, otherwise replace by id. *)
Definition on_status_preparing (updatedOrder : WaiterOrder.t)
    (prevOrders : list DisplayOrder) : list DisplayOrder :=
  let displayOrder := displayOfEvent updatedOrder in
  let orderExists :=
    existsb (fun d => display_id d =? WaiterOrder.id updatedOrder)%Z prevOrders in
  if negb orderExists then displayOrder :: prevOrders
  else map (fun d => if (display_id d =? WaiterOrder.id updatedOrder)%Z
                     then displayOrder else d) prevOrders.

(** The listener of ["order:status-change"] in the waiter table: the same
    reconciliation, for any status. *)
Definition on_status_change (updatedOrder : WaiterOrder.t)
    (prevOrders : list DisplayOrder) : list DisplayOrder :=
  let displayOrder := displayOfEvent updatedOrder in
  let orderExists :=
    existsb (fun d => display_id d =? WaiterOrder.id updatedOrder)%Z prevOrders in
  if negb orderExists then displayOrder :: prevOrders
  else map (fun d => if (display_id d =? WaiterOrder.id updatedOrder)%Z
                     then displayOrder else d) prevOrders.

(** The listener of ["order:new-order"] in the waiter table. *)
Definition on_new_order (newOrder : WaiterOrder.t)
    (prevOrders : list DisplayOrder) : list DisplayOrder :=
  displayOfEvent newOrder :: prevOrders.

End WaiterOrdersPage.

(** ** Waiter dashboard with tabs (WaiterPage) *)

(** [l.findIndex(p)], [None] for -1. *)
Fixpoint findIndex {A} (p : A -> bool) (l : list A) : option nat :=
  match l with
  | [] => None
  | x :: rest => if p x then Some 0%nat else S <$> findIndex p rest
  end.

Module WaiterPage.
Import ChefOrdersPage.

(** The listener of ["order:status-change"]: overwrite the first record
    with the id, or prepend. *)
Definition on_status_change (updatedOrder : WaiterOrder.t)
    (prevOrders : list DisplayOrder) : list DisplayOrder :=
  let displayOrder := displayOfFetch updatedOrder in
  match findIndex (fun d => display_id d =? WaiterOrder.id updatedOrder)%Z prevOrders with
  | Some existingOrderIndex => <[existingOrderIndex := displayOrder]> prevOrders
  | None => displayOrder :: prevOrders
  end.

(** The listener of ["order:new-order"]: prepend unless a record has the id. *)
Definition on_new_order (newOrder : WaiterOrder.t)
    (prevOrders : list DisplayOrder) : list DisplayOrder :=
  let displayOrder := displayOfFetch newOrder in
  if negb (existsb (fun d => display_id d =? WaiterOrder.id newOrder)%Z prevOrders)
  then displayOrder :: prevOrders
  else prevOrders.

(** [statusToTab]: the tab whose notification counter a status change raises. *)
Definition statusToTab (s : OrderStatus) : string :=
  match s with
  | PENDING => "pending"
  | PREPARING => "preparing"
  | READY => "ready"
  | DELIVERED => "delivered"
  | COMPLETED => "delivered"
  | CANCELLED => "cancelled"
  end.

Definition status_is (a b : OrderStatus) : bool :=
  match a, b with
  | PENDING, PENDING | PREPARING, PREPARING | READY, READY
  | DELIVERED, DELIVERED | COMPLETED, COMPLETED | CANCELLED, CANCELLED => true
  | _, _ => false
  end.

(** The predicate of [orders.filter(...)] that picks the orders of a tab. *)
Definition tab_shows (activeTab : string) (d : DisplayOrder) : bool :=
  let status := WaiterOrder.status (order d) in
  if String.eqb activeTab "pending" then status_is status PENDING
  else if String.eqb activeTab "preparing" then status_is status PREPARING
  else if String.eqb activeTab "ready" then status_is status READY
  else if String.eqb activeTab "delivered"
  then status_is status DELIVERED || status_is status COMPLETED
  else true.

Definition filtered (activeTab : string) (orders : list DisplayOrder) : list DisplayOrder :=
  List.filter (tab_shows activeTab) orders.

(** The tabs of the page. *)
Definition tabs : list string := [ "pending"; "preparing"; "ready"; "delivered" ].

(** The local update of [handleUpdateOrderStatus] after the server accepted
    the new status. *)
Definition handleUpdateOrderStatus (orderId : Z) (newStatus : OrderStatus)
    (prevOrders : list DisplayOrder) : list DisplayOrder :=
  map (fun d =>
         if (display_id d =? orderId)%Z
         then {| order :=
                   WaiterOrder.mk (WaiterOrder.id (order d)) (WaiterOrder.tableId (order d))
                     (WaiterOrder.table (order d)) newStatus (WaiterOrder.total (order d))
                     (WaiterOrder.orderItems (order d)) (WaiterOrder.createdAt (order d))
                     (WaiterOrder.updatedAt (order d)) (WaiterOrder.paymentDetails (order d));
                 tableName := tableName d |}
         else d) prevOrders.

End WaiterPage.

(** ** Realtime channel: what a view emits *)

Inductive Emitted :=
| emit_status_change (o : WaiterOrder.t)
| emit_payment_processing (orderId tableId : Z) (tableNumber : option Z).

Definition with_status (s : OrderStatus) (o : WaiterOrder.t) : WaiterOrder.t :=
  WaiterOrder.mk (WaiterOrder.id o) (WaiterOrder.tableId o) (WaiterOrder.table o) s
    (WaiterOrder.total o) (WaiterOrder.orderItems o) (WaiterOrder.createdAt o)
    (WaiterOrder.updatedAt o) (WaiterOrder.paymentDetails o).

(** ** POS page (PosPage) *)

Module PosPage.

Record State := {
  deliveredOrders : list WaiterOrder.t;
  selectedOrder : option WaiterOrder.t;
  completedOrder : option WaiterOrder.t;
  receiptMode : bool;
  loading : bool;
  error : option string;
  printRequested : bool
}.

Definition setDeliveredOrders (l : list WaiterOrder.t) (st : State) : State :=
  {| deliveredOrders := l;
     selectedOrder := selectedOrder st;
     completedOrder := completedOrder st;
     receiptMode := receiptMode st;
     loading := loading st;
     error := error st;
     printRequested := printRequested st |}.

Definition setSelectedOrder (o : option WaiterOrder.t) (st : State) : State :=
  {| deliveredOrders := deliveredOrders st;
     selectedOrder := o;
     completedOrder := completedOrder st;
     receiptMode := receiptMode st;
     loading := loading st;
     error := error st;
     printRequested := printRequested st |}.

Definition setLoading (l : bool) (st : State) : State :=
  {| deliveredOrders := deliveredOrders st;
     selectedOrder := selectedOrder st;
     completedOrder := completedOrder st;
     receiptMode := receiptMode st;
     loading := l;
     error := error st;
     printRequested := printRequested st |}.

Definition setError (e : option string) (st : State) : State :=
  {| deliveredOrders := deliveredOrders st;
     selectedOrder := selectedOrder st;
     completedOrder := completedOrder st;
     receiptMode := receiptMode st;
     loading := loading st;
     error := e;
     printRequested := printRequested st |}.

(** [setCompletedOrder(o); setReceiptMode(true); setPrintRequested(true)] *)
Definition showReceipt (o : WaiterOrder.t) (st : State) : State :=
  {| deliveredOrders := deliveredOrders st;
     selectedOrder := selectedOrder st;
     completedOrder := Some o;
     receiptMode := true;
     loading := loading st;
     error := error st;
     printRequested := true |}.

(** [fetchDeliveredOrders] *)
Definition fetchDeliveredOrders (apiClient : Transport (list WaiterOrder.t)) (st : State)
  : State :=
  let st := setError None (setLoading true st) in
  let st :=
    match settles (ordersApi.getDeliveredOrders apiClient) with
    | Resolved orders => setDeliveredOrders orders st
    | Rejected err => setError (Some "Failed to load orders. Please try again.") st
    end in
  setLoading false st.

(** [selectedOrder?.id === updatedOrder.id] *)
Definition selected_is (sel : option WaiterOrder.t) (i : Z) : bool :=
  match sel with
  | Some o => (WaiterOrder.id o =? i)%Z
  | None => false
  end.

(** [handleOrderUpdate], the listener of ["order:status-change"]. *)
Definition handleOrderUpdate (updatedOrder : WaiterOrder.t) (st : State) : State :=
  let prevOrders := deliveredOrders st in
  match WaiterOrder.status updatedOrder with
  | DELIVERED =>
      if negb (some_id (WaiterOrder.id updatedOrder) prevOrders)
      then setDeliveredOrders (updatedOrder :: prevOrders) st
      else st
  | COMPLETED =>
      let orderExists := some_id (WaiterOrder.id updatedOrder) prevOrders in
      if orderExists
      then
        let st' :=
          if selected_is (selectedOrder st) (WaiterOrder.id updatedOrder)
             && negb (receiptMode st)
          then setSelectedOrder None st else st in
        setDeliveredOrders (filter_out_id (WaiterOrder.id updatedOrder) prevOrders) st'
      else st
  | _ => st
  end.

(** [handleCompleteOrder]: the next state, what is emitted on the realtime
    channel, and how the returned promise settles. *)
Definition handleCompleteOrder (apiClient : Transport CompleteOrderResult)
    (orderId : Z) (paymentDetails : PaymentDetails.t) (st : State)
  : State * list Emitted * Outcome unit :=
  match settles (ordersApi.completeOrder apiClient orderId paymentDetails) with
  | Resolved response =>
      let st := showReceipt (result_order response) st in
      let st := setDeliveredOrders (filter_out_id orderId (deliveredOrders st)) st in
      (st, [emit_status_change (with_status COMPLETED (result_order response))], Resolved tt)
  | Rejected err => (st, [], Rejected err)
  end.


(** [orderToDisplay]: [receiptMode ? (completedOrder || selectedOrder) : selectedOrder] *)
Definition orderToDisplay (st : State) : option WaiterOrder.t :=
  if receiptMode st then
    match completedOrder st with
    | Some o => Some o
    | None => selectedOrder st
    end
  else selectedOrder st.

(** Which panel is on screen beside the list. *)
Inductive Panel :=
| PaymentForm (o : WaiterOrder.t)
| Receipt (o : WaiterOrder.t)
| Placeholder.

Definition panel (st : State) : Panel :=
  match orderToDisplay st with
  | Some o => if receiptMode st then Receipt o else PaymentForm o
  | None => Placeholder
  end.

End PosPage.

(** ** POS order details and payment (OrderDetails) *)

Module OrderDetails.

Record State := {
  paymentMethod : PaymentMethod;
  processing : bool;
  taxPercentage : float
}.

(** [useState('cash')], [useState(false)], [useState(5)] *)
Definition initial : State :=
  {| paymentMethod := cash; processing := false; taxPercentage := 5 |}.

(** [Number(x)]; [OrderItem.price] is declared a number, on which it is
    the identity. *)
Definition Number (x : float) : float := x.

Definition calculateSubtotal (order : WaiterOrder.t) : float :=
  fold_left (fun sum item => (sum + Number (price item) * quantity item)%float)
    (WaiterOrder.orderItems order) 0%float.

Definition calculateTaxAmount (st : State) (order : WaiterOrder.t) : float :=
  let subtotal := calculateSubtotal order in
  ((subtotal * taxPercentage st) / 100)%float.

Definition calculateTotal (st : State) (order : WaiterOrder.t) : float :=
  let subtotal := calculateSubtotal order in
  let taxAmount := calculateTaxAmount st order in
  (subtotal + taxAmount)%float.

(** [order.table?.tableNumber || 'Unknown'] inside the template literal *)
Definition table_label (order : WaiterOrder.t) : string :=
  match WaiterOrder.table order with
  | Some t =>
      match tableNumber t with
      | Some n => if (n =? 0)%Z then "Unknown" else pretty n
      | None => "Unknown"
      end
  | None => "Unknown"
  end.

Definition buildPaymentDetails (st : State) (order : WaiterOrder.t) : PaymentDetails.t :=
  {| PaymentDetails.paymentMethod := paymentMethod st;
     PaymentDetails.amountPaid := calculateTotal st order;
     PaymentDetails.taxPercentage := Some (taxPercentage st);
     PaymentDetails.taxAmount := Some (calculateTaxAmount st order);
     PaymentDetails.subtotal := Some (calculateSubtotal order);
     PaymentDetails.notes :=
       Some ("Payment processed by POS admin for table " +:+ table_label order) |}.

(** [handleTaxChange]; [value] is [parseFloat(e.target.value)]. *)
Definition handleTaxChange (value : float) (st : State) : State :=
  {| paymentMethod := paymentMethod st;
     processing := processing st;
     taxPercentage := if PrimFloat.is_nan value then 0%float else value |}.



End OrderDetails.

(** ** Delivered-orders list of the POS (DeliveredOrdersList) *)

Module DeliveredOrdersList.

(** Calls made on the parent's callbacks, in the order they are made. *)
Inductive Callback :=
| onOrdersUpdate (updatedOrders : list WaiterOrder.t)
| onOrderSelect (o : option WaiterOrder.t)
| onOrderCompletionChange (isCompleted : bool).

Record Props := {
  selectedOrderId : option Z;
  has_onOrdersUpdate : bool;
  has_onOrderCompletionChange : bool
}.

Record State := {
  orders : list WaiterOrder.t;
  tabValue : string;
  currentFocusIndex : Z
}.

Definition selected_is (p : Props) (i : Z) : bool :=
  match selectedOrderId p with
  | Some s => (s =? i)%Z
  | None => false
  end.

Definition when {A} (b : bool) (l : list A) : list A := if b then l else [].

(** [handleOrderUpdate], the listener of ["order:status-change"].  The
    source reads [orders] from the closure of the current render and the
    listener is re-attached whenever [orders] changes; [st] is that render's
    state. *)
Definition handleOrderUpdate (p : Props) (updatedOrder : WaiterOrder.t) (st : State)
  : State * list Callback :=
  let i := WaiterOrder.id updatedOrder in
  match WaiterOrder.status updatedOrder with
  | DELIVERED =>
      let orderExists := some_id i (orders st) in
      if negb orderExists then
        let newOrders := updatedOrder :: orders st in
        ({| orders := newOrders; tabValue := tabValue st;
            currentFocusIndex := currentFocusIndex st |},
         when (has_onOrdersUpdate p) [onOrdersUpdate newOrders])
      else (st, [])
  | COMPLETED =>
      if String.eqb (tabValue st) "all" then
        let updatedOrders := replace_by_id updatedOrder (orders st) in
        ({| orders := updatedOrders; tabValue := tabValue st;
            currentFocusIndex := currentFocusIndex st |},
         when (has_onOrdersUpdate p) [onOrdersUpdate updatedOrders]
         ++ when (selected_is p i && has_onOrderCompletionChange p)
              [onOrderCompletionChange true])
      else
        let updatedOrders := filter_out_id i (orders st) in
        if selected_is p i then
          ({| orders := updatedOrders; tabValue := tabValue st;
              currentFocusIndex := if (0 <? length updatedOrders)%nat then 0 else (-1) |},
           [onOrderSelect (head updatedOrders)]
           ++ when (has_onOrderCompletionChange p) [onOrderCompletionChange false]
           ++ when (has_onOrdersUpdate p) [onOrdersUpdate updatedOrders])
        else
          ({| orders := updatedOrders; tabValue := tabValue st;
              currentFocusIndex := currentFocusIndex st |},
           when (has_onOrdersUpdate p) [onOrdersUpdate updatedOrders])
  | _ => (st, [])
  end.

(** [handleOrderSelect(order)] *)
Definition handleOrderSelect (p : Props) (o : option WaiterOrder.t) : list Callback :=
  [onOrderSelect o]
  ++ match o with
     | Some order =>
         when (has_onOrderCompletionChange p)
           [onOrderCompletionChange (match WaiterOrder.status order with
                                     | COMPLETED => true
                                     | _ => false
                                     end)]
     | None => []
     end.

(** [displayedOrders[i]] for a whole number [i]. *)
Definition at_index (displayedOrders : list WaiterOrder.t) (i : Z) : option WaiterOrder.t :=
  if (i <? 0)%Z then None else nth_error displayedOrders (Z.to_nat i).

Definition setCurrentFocusIndex (i : Z) (st : State) : State :=
  {| orders := orders st; tabValue := tabValue st; currentFocusIndex := i |}.

Inductive ArrowKey := ArrowDown | ArrowUp.

(** The arrow-key branch of [handleKeyPress], outside input fields. *)
Definition handleArrowKey (p : Props) (key : ArrowKey)
    (displayedOrders : list WaiterOrder.t) (st : State) : State * list Callback :=
  if (length displayedOrders =? 0)%nat then (st, [])
  else
    let n := Z.of_nat (length displayedOrders) in
    let newIndex :=
      match key with
      | ArrowDown =>
          if (currentFocusIndex st <? n - 1)%Z then (currentFocusIndex st + 1)%Z else 0%Z
      | ArrowUp =>
          if (0 <? currentFocusIndex st)%Z then (currentFocusIndex st - 1)%Z else (n - 1)%Z
      end in
    (setCurrentFocusIndex newIndex st,
     handleOrderSelect p (at_index displayedOrders newIndex)).

(** The digit branch of [handleKeyPress]: key [1] to [9] as [digit]. *)
Definition handleDigitKey (p : Props) (digit : Z)
    (displayedOrders : list WaiterOrder.t) (st : State) : State * list Callback :=
  let orderIndex := (digit - 1)%Z in
  if (orderIndex <? Z.of_nat (length displayedOrders))%Z
  then (setCurrentFocusIndex orderIndex st,
        handleOrderSelect p (at_index displayedOrders orderIndex))
  else (st, []).

End DeliveredOrdersList.

(** ** The POS screen: the page with its list mounted (PosPage) *)

Module PosScreen.

Record State := {
  page : PosPage.State;
  ordersList : DeliveredOrdersList.State
}.

(** The props of [<DeliveredOrdersList ... />] in the page's render:
    [selectedOrderId={selectedOrder?.id || null}], [onOrderSelect] and
    [onOrdersUpdate] given, [onOrderCompletionChange] not. *)
Definition list_props (st : PosPage.State) : DeliveredOrdersList.Props :=
  {| DeliveredOrdersList.selectedOrderId :=
       match PosPage.selectedOrder st with
       | Some o => if (WaiterOrder.id o =? 0)%Z then None else Some (WaiterOrder.id o)
       | None => None
       end;
     DeliveredOrdersList.has_onOrdersUpdate := true;
     DeliveredOrdersList.has_onOrderCompletionChange := false |}.

(** What a call of the list does to the page: [onOrderSelect] is
    [setSelectedOrder] and [onOrdersUpdate] is [setDeliveredOrders]. *)
Definition call (c : DeliveredOrdersList.Callback) (st : PosPage.State) : PosPage.State :=
  match c with
  | DeliveredOrdersList.onOrdersUpdate updatedOrders =>
      PosPage.setDeliveredOrders updatedOrders st
  | DeliveredOrdersList.onOrderSelect o => PosPage.setSelectedOrder o st
  | DeliveredOrdersList.onOrderCompletionChange _ => st
  end.

Definition calls (cs : list DeliveredOrdersList.Callback) (st : PosPage.State)
  : PosPage.State :=
  fold_left (fun st c => call c st) cs st.

(** An ["order:status-change"] event on the screen: both components listen.
    The page's listener acts on the page state, the list's listener acts on
    its own state and, through its calls, on the page state. *)
Definition on_status_change (updatedOrder : WaiterOrder.t) (s : State) : State :=
  let (list', cs) :=
    DeliveredOrdersList.handleOrderUpdate (list_props (page s)) updatedOrder (ordersList s) in
  {| page := calls cs (PosPage.handleOrderUpdate updatedOrder (page s));
     ordersList := list' |}.

End PosScreen.

(** ** Price helpers (lib/utils) *)

(** [typeof v === 'number' ? v : parseFloat(String(v))]; [None] when
    [String(v)] throws. *)
Definition numeric_value (js : Platform) (v : Js.value) : option float :=
  match v with
  | Js.Number x => Some x
  | _ => s ← ToString js v; Some (parseFloat js s)
  end.

(** [isNaN(p) ? 0 : p] over the value above *)
Definition price_or_zero (js : Platform) (v : Js.value) : option float :=
  p ← numeric_value js v;
  Some (if PrimFloat.is_nan p then 0%float else p).

(** [getItemPrice(item, isHalfPortion)]; [None] is a thrown exception. *)
Definition getItemPrice (js : Platform) (item : Js.value) (isHalfPortion : bool)
  : option float :=
  if Js.falsy item then Some 0%float
  else
    useHalf ←
      (if isHalfPortion
       then halfPrice ← Js.get item "halfPrice"; Some (Js.present halfPrice)
       else Some false);
    if useHalf : bool then
      halfPrice ← Js.get item "halfPrice";
      price_or_zero js halfPrice
    else
      fullPrice ← Js.get item "fullPrice";
      if Js.present fullPrice then price_or_zero js fullPrice
      else
        price ← Js.get item "price";
        if Js.present price then price_or_zero js price
        else Some 0%float.

(** [hasHalfPortionPrice(item)] *)
Definition hasHalfPortionPrice (item : Js.value) : option bool :=
  halfPrice ← Js.get item "halfPrice";
  Some (Js.present halfPrice).

(** [getItemPrice(item)] of the item administration page (ItemPage), which
    knows no half portions. *)
Definition ItemPage_getItemPrice (js : Platform) (item : Js.value) : option float :=
  if Js.falsy item then Some 0%float
  else
    fullPrice ← Js.get item "fullPrice";
    if Js.present fullPrice then price_or_zero js fullPrice
    else
      price ← Js.get item "price";
      if Js.present price then price_or_zero js price
      else Some 0%float.

(** ** Routes and guards (App, AuthGuard) *)

Inductive Role := ADMIN | CHEF | WAITER | POS_ADMIN | CUSTOMER.

Record Location := {
  pathname : string;
  search : string;
  hash : string
}.

(** What [useAuth()] and the guard's own [isTokenValid] state give. *)
Record AuthContext := {
  isAuthenticated : bool;
  userRole : option Role;
  isTokenValid : bool
}.

Inductive Page :=
| AdminDashboard | CategoryPage | ManageMenusPage | ItemPage | TablePage
| SettingsPage | PosPage | ChefDashboard | ChefOrdersPage
| WaiterDashboard | WaiterOrdersPage | WaiterOrdersKOTPage
| LoginPage | SignupPage | NewUserPage | MenuCardPage | LoadingText.

(** The element of a route, as written in the route table. *)
Inductive Element :=
| View (p : Page)
| Navigate (to : string)
| AuthGuard (children : Element)
| PosGuard (children : Element)
| GuestGuard (children : Element).

(** What ends up on screen: a view, or a redirect with its [state.from]. *)
Inductive Rendered :=
| Shows (p : Page)
| Redirects (to : string) (from : option Location).

Definition role_is (r : Role) (u : option Role) : bool :=
  match u, r with
  | Some ADMIN, ADMIN | Some CHEF, CHEF | Some WAITER, WAITER
  | Some POS_ADMIN, POS_ADMIN | Some CUSTOMER, CUSTOMER => true
  | _, _ => false
  end.

Definition home_of (u : option Role) : string :=
  if role_is ADMIN u then "/admin/dashboard"
  else if role_is CHEF u then "/chef"
  else if role_is WAITER u then "/waiter"
  else if role_is POS_ADMIN u then "/posAdmin/pos"
  else "/menu".

Fixpoint render (auth : AuthContext) (location : Location) (e : Element) : Rendered :=
  match e with
  | View p => Shows p
  | Navigate to => Redirects to None
  | AuthGuard children =>
      if negb (isAuthenticated auth) || negb (isTokenValid auth)
      then Redirects "/login" (Some location)
      else if String.eqb (pathname location) "/"
      then Redirects (home_of (userRole auth)) None
      else render auth location children
  | PosGuard children =>
      if negb (isAuthenticated auth) then Redirects "/login" None
      else if negb (role_is ADMIN (userRole auth)) && negb (role_is POS_ADMIN (userRole auth))
      then Redirects "/" None
      else render auth location children
  | GuestGuard children =>
      if (String.eqb (pathname location) "/newUser" || String.eqb (pathname location) "/login")
         && isAuthenticated auth
         && match userRole auth with None => true | Some _ => false end
      then render auth location children
      else if isAuthenticated auth && isTokenValid auth
      then
        if role_is ADMIN (userRole auth) then Redirects "/admin/dashboard" None
        else if role_is CHEF (userRole auth) then Redirects "/chef" None
        else if role_is WAITER (userRole auth) then Redirects "/waiter" None
        else if role_is POS_ADMIN (userRole auth) then Redirects "/posAdmin/pos" None
        else if match userRole auth with None => true | Some _ => false end
                && negb (String.eqb (pathname location) "/login")
        then Redirects "/newUser" None
        else Redirects "/menu" None
      else render auth location children
  end.

(** The [<Routes>] of [App], in source order, without the parametric
    [/table/:tableNumber] and the catch-all, which [route_element] adds. *)
Definition routes : list (string * Element) :=
  [ ("/", AuthGuard (View LoadingText));
    ("/admin", AuthGuard (Navigate "/admin/dashboard"));
    ("/admin/dashboard", AuthGuard (View AdminDashboard));
    ("/admin/categories", AuthGuard (View CategoryPage));
    ("/admin/menus", AuthGuard (View ManageMenusPage));
    ("/admin/items", AuthGuard (View ItemPage));
    ("/admin/tables", AuthGuard (View TablePage));
    ("/admin/settings", AuthGuard (View SettingsPage));
    ("/posAdmin/pos", AuthGuard (PosGuard (View PosPage)));
    ("/chef", View ChefDashboard);
    ("/chef/orders", View ChefOrdersPage);
    ("/waiter", View WaiterDashboard);
    ("/waiter/orders", View WaiterOrdersPage);
    ("/waiter/ordersKOT", View WaiterOrdersKOTPage);
    ("/login", GuestGuard (View LoginPage));
    ("/signup", GuestGuard (View SignupPage));
    ("/newUser", GuestGuard (View NewUserPage)) ].

Fixpoint find_route (path : string) (table : list (string * Element)) : option Element :=
  match table with
  | [] => None
  | (p, e) :: rest => if String.eqb p path then Some e else find_route path rest
  end.

(** [/table/:tableNumber]: one non-empty segment after [/table/]. *)
Definition is_table_path (path : string) : bool :=
  match split "/" path with
  | [root; t; n] => String.eqb root "" && String.eqb t "table" && negb (String.eqb n "")
  | _ => false
  end.

Definition route_element (path : string) : Element :=
  match find_route path routes with
  | Some e => e
  | None => if is_table_path path then View MenuCardPage else Navigate "/"
  end.

(** What the application shows at a location. *)
Definition App (auth : AuthContext) (location : Location) : Rendered :=
  render auth location (route_element (pathname location)).

(** The routes of the role dashboards: admin and POS, chef and waiter. *)
Definition admin_pos_paths : list string :=
  [ "/admin"; "/admin/dashboard"; "/admin/categories"; "/admin/menus";
    "/admin/items"; "/admin/tables"; "/admin/settings"; "/posAdmin/pos" ].

Definition chef_waiter_paths : list string :=
  [ "/chef"; "/chef/orders"; "/waiter"; "/waiter/orders"; "/waiter/ordersKOT" ].

Definition protected_paths : list string := admin_pos_paths ++ chef_waiter_paths.

(** The routes whose element is wrapped in [AuthGuard]. *)
Definition guarded_by_AuthGuard (path : string) : bool :=
  match find_route path routes with
  | Some (AuthGuard _) => true
  | _ => false
  end.

(** ** Catalogue records (lib/api/menuItems, lib/api/categories) *)

Module MenuItem.
Record t := mk {
  id : Z;
  name : string;
  description : option string;
  fullPrice : float;
  halfPrice : option float;
  preparationTime : float;
  imageUrl : option string;
  isAvailable : bool;
  subcategory : option string;
  tags : option (list string);
  categoryId : Z
}.

(** [{ ...i, isAvailable: b }] *)
Definition with_isAvailable (b : bool) (i : t) : t :=
  mk (id i) (name i) (description i) (fullPrice i) (halfPrice i) (preparationTime i)
     (imageUrl i) b (subcategory i) (tags i) (categoryId i).
End MenuItem.

Module Category.
Record t := mk {
  id : Z;
  name : string;
  description : option string;
  imageUrl : option string
}.
End Category.

(** ** Delete confirmation dialog (DeleteCategoryConfirmDialog) *)

Module DeleteCategoryConfirmDialog.

Record Props := {
  open : bool;
  category : option Category.t;
  itemCount : option nat;
  title : option string;
  description : option string
}.

(** Truthiness of an optional string: present and not empty. *)
Definition truthy (s : option string) : bool :=
  match s with
  | Some s => negb (String.eqb s "")
  | None => false
  end.

(** What the dialog shows; [delete_action] says whether the button wired
    to [onConfirm] is rendered. *)
Record Dialog := {
  shown : bool;
  blocked_notice : bool;
  delete_action : bool
}.

Definition render (p : Props) : option Dialog :=
  if negb (match category p with Some _ => true | None => false end)
     && negb (truthy (title p)) && negb (truthy (description p))
  then None
  else
    let itemCount := default 0%nat (itemCount p) in
    let hasItems := (0 <? itemCount)%nat in
    Some {| shown := open p;
            blocked_notice := negb (truthy (description p)) && hasItems;
            delete_action := negb hasItems || truthy (description p) |}.

(** The user can press Delete: the dialog is open and renders the action. *)
Definition can_confirm (p : Props) : bool :=
  match render p with
  | Some d => shown d && delete_action d
  | None => false
  end.

End DeleteCategoryConfirmDialog.

(** ** Category administration (CategoryPage) *)

Module CategoryAdmin.

Record State := {
  categories : list Category.t;
  menuItems : list MenuItem.t;
  currentCategory : option Category.t;
  deleteDialogOpen : bool;
  selectedCategories : list Z;
  batchDeleteDialogOpen : bool
}.

Definition getCategoryItemCount (st : State) (categoryId : Z) : nat :=
  length (List.filter (fun item => MenuItem.categoryId item =? categoryId)%Z (menuItems st)).

(** The requests [DELETE /categories/:id] issued by [handleDeleteCategory]. *)
Definition handleDeleteCategory (st : State) : list Z :=
  match currentCategory st with
  | None => []
  | Some c => [Category.id c]
  end.

(** The requests issued by [handleBatchDeleteCategories]: one per selected id. *)
Definition handleBatchDeleteCategories (st : State) : list Z :=
  if (length (selectedCategories st) =? 0)%nat then []
  else selectedCategories st.

(** Props of the single-category dialog. *)
Definition deleteDialog (st : State) : DeleteCategoryConfirmDialog.Props :=
  {| DeleteCategoryConfirmDialog.open := deleteDialogOpen st;
     DeleteCategoryConfirmDialog.category := currentCategory st;
     DeleteCategoryConfirmDialog.itemCount :=
       Some (match currentCategory st with
             | Some c => getCategoryItemCount st (Category.id c)
             | None => 0%nat
             end);
     DeleteCategoryConfirmDialog.title := None;
     DeleteCategoryConfirmDialog.description := None |}.

(** Props of the batch dialog. *)
Definition batchDeleteDialog (st : State) : DeleteCategoryConfirmDialog.Props :=
  {| DeleteCategoryConfirmDialog.open := batchDeleteDialogOpen st;
     DeleteCategoryConfirmDialog.category := None;
     DeleteCategoryConfirmDialog.itemCount :=
       Some (fold_left (fun total categoryId => (total + getCategoryItemCount st categoryId)%nat)
               (selectedCategories st) 0%nat);
     DeleteCategoryConfirmDialog.title := Some "Delete Multiple Categories";
     DeleteCategoryConfirmDialog.description :=
       Some ("Are you sure you want to delete "
             +:+ pretty (length (selectedCategories st))
             +:+ " categories? This action cannot be undone.") |}.

(** The delete requests a press on Delete can cause in the single dialog. *)
Definition single_delete_requests (st : State) : list Z :=
  if DeleteCategoryConfirmDialog.can_confirm (deleteDialog st)
  then handleDeleteCategory st else [].

(** The delete requests a press on Delete can cause in the batch dialog. *)
Definition batch_delete_requests (st : State) : list Z :=
  if DeleteCategoryConfirmDialog.can_confirm (batchDeleteDialog st)
  then handleBatchDeleteCategories st else [].

(** [handleSelectCategory(category, isSelected)] on the selection. *)
Definition handleSelectCategory (category : Category.t) (isSelected : bool)
    (prev : list Z) : list Z :=
  if isSelected then prev ++ [Category.id category]
  else List.filter (fun id => negb (id =? Category.id category)%Z) prev.

(** [selectedCategories.includes(id)] *)
Definition includes (id : Z) (selected : list Z) : bool :=
  existsb (fun i => (i =? id)%Z) selected.

(** A click on the checkbox of a card: the box shows
    [selectedCategories.includes(category.id)] and reports the opposite. *)
Definition clickCheckbox (category : Category.t) (prev : list Z) : list Z :=
  handleSelectCategory category (negb (includes (Category.id category) prev)) prev.

(** [handleSelectAll]; [filteredCategories] are the cards on screen. *)
Definition handleSelectAll (filteredCategories : list Category.t) (selected : list Z)
  : list Z :=
  if (length selected =? length filteredCategories)%nat then []
  else map Category.id filteredCategories.

(** [isAllSelected] *)
Definition isAllSelected (filteredCategories : list Category.t) (selected : list Z) : bool :=
  (0 <? length filteredCategories)%nat
  && (length selected =? length filteredCategories)%nat.

Definition all_resolved {A} (outcomes : list (Outcome A)) : bool :=
  forallb (fun o => match o with Resolved _ => true | Rejected _ => false end) outcomes.

(** [handleBatchDeleteCategories] end to end: [server] is how the request
    [DELETE /categories/:id] settles.  The result is the next state and the
    requests issued. *)
Definition batchDelete (server : Z -> Outcome unit) (st : State) : State * list Z :=
  if (length (selectedCategories st) =? 0)%nat then (st, [])
  else
    let deletePromises := map server (selectedCategories st) in
    if all_resolved deletePromises then
      ({| categories :=
            List.filter (fun cat => negb (includes (Category.id cat) (selectedCategories st)))
              (categories st);
          menuItems := menuItems st;
          currentCategory := currentCategory st;
          deleteDialogOpen := deleteDialogOpen st;
          selectedCategories := [];
          batchDeleteDialogOpen := false |},
       selectedCategories st)
    else (st, selectedCategories st).

End CategoryAdmin.

(** ** Chef item availability (ChefPage) *)

Module ChefPage.


(** The update of the [catch] block: write back the item's own flag. *)
Definition revert (item : MenuItem.t) (prevItems : list MenuItem.t) : list MenuItem.t :=
  map (fun i =>
         if (MenuItem.id i =? MenuItem.id item)%Z
         then MenuItem.with_isAvailable (MenuItem.isAvailable item) i
         else i) prevItems.


End ChefPage.

(** ** Request interceptor and calls through the shared client (client.ts) *)

Definition setItem (k v : string) (b : Browser) : Browser :=
  {| window_defined := window_defined b;
     localStorage := <[k := v]> (localStorage b);
     navigations := navigations b |}.

(** The request interceptor, on the headers of the outgoing request. *)
Definition request_interceptor (b : Browser) (headers : gmap string string)
  : gmap string string :=
  if window_defined b then
    match getItem "auth-token" b with
    | Some token =>
        if String.eqb token "" then headers
        else <["Authorization" := "Bearer " +:+ token]> headers
    | None => headers
    end
  else headers.

(** A call through [apiClient]: a fulfilled response is passed on, a rejected
    one goes through the response interceptor first. *)
Definition apiClient_call {D} (network : Outcome D) (b : Browser) : Browser * Outcome D :=
  match network with
  | Resolved d => (b, Resolved d)
  | Rejected error => response_interceptor error b
  end.

(** ** Users client (src/lib/api/user.ts) *)

Record LoginUser := {
  user_name : string;
  user_role : option Role
}.

Record LoginResult := {
  login_token : string;
  login_user : LoginUser
}.

(** [new Error(message)]: an error with a message and no response. *)
Definition new_Error (message : string) : AxiosError :=
  {| response := None; reason := message |}.

Definition console_log (msg : string) : Async unit := ([msg], Resolved tt).

(** [error.response?.status === 401 &&
     error.response?.data?.message === 'User has not been assigned a role'] *)
Definition is_no_role_error (error : AxiosError) : bool :=
  match response error with
  | Some r =>
      (status r =? 401)%Z
      && Js.strict_eq_str (Js.opt_get (data r) "message") no_role_message
  | None => false
  end.

Module authApi.

(** [authApi.login]; [call] is how [apiClient.post("/users/login", ...)]
    settles. *)
Definition login (call : Outcome LoginResult) : Async LoginResult :=
  try_catch
    (response_data ← await call;
     console_log "login response";;
     mret response_data)
    (fun error =>
       console_log "login error response";;
       if is_no_role_error error
       then throw (new_Error no_role_message)
       else throw error).

End authApi.

(** ** Session provider (AuthContext) and the login form (AuthForm) *)

Definition role_number (r : Role) : Z :=
  match r with
  | ADMIN => 0
  | CHEF => 1
  | WAITER => 2
  | POS_ADMIN => 3
  | CUSTOMER => 4
  end.

(** The same numbers as JavaScript numbers. *)
Definition role_value (r : Role) : float :=
  match r with
  | ADMIN => 0
  | CHEF => 1
  | WAITER => 2
  | POS_ADMIN => 3
  | CUSTOMER => 4
  end.

Module AuthProvider.

(** The provider's state; [userRole] is the number read back from storage
    or given at login. *)
Record State := {
  token : option string;
  userRole : option float
}.

(** [!!token] *)
Definition isAuthenticated (st : State) : bool :=
  match token st with
  | Some t => negb (String.eqb t "")
  | None => false
  end.

Definition signed_out : State := {| token := None; userRole := None |}.

(** The effect run once on mount: adopt a stored, unexpired token (and the
    stored role when it reads as a number); log out on an expired one. *)
Definition on_mount (js : Platform) (now : float) (st : State) (b : Browser)
  : State * Browser :=
  match getItem "auth-token" b with
  | Some storedToken =>
      if String.eqb storedToken "" then (st, b)
      else if negb (isTokenExpired js b now) then
        let role :=
          match getItem "auth-role" b with
          | Some storedRole =>
              if negb (String.eqb storedRole "")
                 && negb (PrimFloat.is_nan (StringToNumber js storedRole))
              then Some (StringToNumber js storedRole)
              else userRole st
          | None => userRole st
          end in
        ({| token := Some storedToken; userRole := role |}, b)
      else (st, logout b)
  | None => (st, b)
  end.

(** [login(newToken, role?)] *)
Definition login (newToken : string) (role : option Role)
    (st : State) (b : Browser) : State * Browser :=
  let b := setItem "auth-token" newToken b in
  match role with
  | Some r =>
      ({| token := Some newToken; userRole := Some (role_value r) |},
       setItem "auth-role" (pretty (role_number r)) b)
  | None =>
      ({| token := Some newToken; userRole := None |}, removeItem "auth-role" b)
  end.

(** [handleLogout], the [logout] the context hands out. *)
Definition handleLogout (st : State) (b : Browser) : State * Browser :=
  (signed_out, logout b).

(** The check of the one-minute timer. *)
Definition on_interval (js : Platform) (now : float) (st : State) (b : Browser) : Browser :=
  if isAuthenticated st && isTokenExpired js b now then logout b else b.

End AuthProvider.

Module AuthForm.

(** What a submission of the login form leads to. *)
Record Result := {
  session : AuthProvider.State;
  browser : Browser;
  navigated : option string
}.

(** [onSubmit] of the login form on [LoginPage], whose [onSuccess] navigates
    to the root; [network] is how the server answers [POST /users/login]. *)
Definition onSubmit_login (network : Outcome LoginResult)
    (st : AuthProvider.State) (b : Browser) : Result :=
  let (b, call) := apiClient_call network b in
  match settles (authApi.login call) with
  | Resolved r =>
      let (st, b) :=
        AuthProvider.login (login_token r) (user_role (login_user r)) st b in
      {| session := st; browser := b; navigated := Some "/" |}
  | Rejected error =>
      if String.eqb (reason error) no_role_message
      then {| session := st; browser := b; navigated := Some "/newUser" |}
      else {| session := st; browser := b; navigated := None |}
  end.

End AuthForm.

(** [s.includes(c)] for a character. *)
Fixpoint includes_char (c : ascii) (s : string) : bool :=
  match s with
  | EmptyString => false
  | String c' rest => Ascii.eqb c' c || includes_char c rest
  end.

(** The admin pages behind [AuthGuard] alone. *)
Definition admin_page_paths : list string :=
  [ "/admin/dashboard"; "/admin/categories"; "/admin/menus";
    "/admin/items"; "/admin/tables"; "/admin/settings" ].

(** The guest routes. *)
Definition guest_paths : list string := [ "/login"; "/signup"; "/newUser" ].

(** ** Receipt (ReceiptGenerator) *)

Module ReceiptGenerator.

(** Truthiness of a number: neither zero nor [NaN]. *)
Definition truthy (x : float) : bool :=
  negb ((x =? 0)%float || PrimFloat.is_nan x).

Definition calculateSubtotal (order : WaiterOrder.t) : float :=
  fold_left (fun sum item => (sum + price item * quantity item)%float)
    (WaiterOrder.orderItems order) 0%float.

(** [order.paymentDetails?.taxAmount], when it is truthy. *)
Definition recorded_tax (order : WaiterOrder.t) : option float :=
  details ← WaiterOrder.paymentDetails order;
  taxAmount ← PaymentDetails.taxAmount details;
  if truthy taxAmount then Some taxAmount else None.

Definition getTaxAmount (order : WaiterOrder.t) : float :=
  let subtotal := calculateSubtotal order in
  let total := WaiterOrder.total order in
  match recorded_tax order with
  | Some taxAmount => taxAmount
  | None => if (subtotal <? total)%float then (total - subtotal)%float else 0%float
  end.

End ReceiptGenerator.

(** ** Sample records *)

Definition sample_order (i : Z) (s : OrderStatus) (lines : list OrderItem) : WaiterOrder.t :=
  {| WaiterOrder.id := i;
     WaiterOrder.tableId := 7;
     WaiterOrder.table := Some {| table_id := 7; tableNumber := Some 7%Z; number := None |};
     WaiterOrder.status := s;
     WaiterOrder.total := 0%float;
     WaiterOrder.orderItems := lines;
     WaiterOrder.createdAt := "2025-01-01T10:00:00Z";
     WaiterOrder.updatedAt := "2025-01-01T10:05:00Z";
     WaiterOrder.paymentDetails := None |}.

Definition order42 : WaiterOrder.t := sample_order 42 PREPARING [].

Definition network_down : AxiosError :=
  {| response := None; reason := "Network Error" |}.

(** A transport on which every request fails without an answer. *)
Definition offline {D} : Transport D := fun _ _ _ => Rejected network_down.

(** An order of two lines, 2 x 60 and 1 x 80: subtotal 200. *)
Definition order99 : WaiterOrder.t :=
  sample_order 99 DELIVERED
    [ {| line_id := 1; itemId := 11; quantity := 2%float; price := 60%float |};
      {| line_id := 2; itemId := 12; quantity := 1%float; price := 80%float |} ].

(** The POS page with order 99 awaiting payment. *)
Definition pos_with_order99 : PosPage.State :=
  {| PosPage.deliveredOrders := [order99];
     PosPage.selectedOrder := None;
     PosPage.completedOrder := None;
     PosPage.receiptMode := false;
     PosPage.loading := false;
     PosPage.error := None;
     PosPage.printRequested := false |}.



(** A browser holding a session: a token of three segments and a role. *)
Definition logged_in : Browser :=
  {| window_defined := true;
     localStorage := <["auth-role" := "1"]> (<["auth-token" := "head.body.sig"]> ∅);
     navigations := [] |}.

Definition error_401 (message : string) : AxiosError :=
  {| response := Some {| status := 401; data := Js.Object [("message", Js.Str message)] |};
     reason := "Request failed with status code 401" |}.

(** [String(v)] on data as [JSON.parse] gives it.  An object answers
    [[object Object]] through [Object.prototype.toString], unless it has an
    own property [toString]: that is a data value, not callable, and
    [valueOf] answers the object itself, so the conversion throws a
    [TypeError].  An array joins its elements with commas, [undefined] and
    [null] as the empty text. *)
Fixpoint String_of_data (number : float -> string) (v : Js.value) : option string :=
  match v with
  | Js.Undefined => Some "undefined"
  | Js.Null => Some "null"
  | Js.Bool true => Some "true"
  | Js.Bool false => Some "false"
  | Js.Number x => Some (number x)
  | Js.Str s => Some s
  | Js.Array items =>
      (fix join (l : list Js.value) : option string :=
         match l with
         | [] => Some ""
         | x :: rest =>
             first ← match x with
                     | Js.Undefined | Js.Null => Some ""
                     | _ => String_of_data number x
                     end;
             match rest with
             | [] => Some first
             | _ :: _ => others ← join rest; Some (first +:+ "," +:+ others)
             end
         end) items
  | Js.Object fields =>
      match Js.lookup_field "toString" fields with
      | Some _ => None
      | None => Some "[object Object]"
      end
  end.

(** Built-ins for the examples.  The segment [body] decodes to a document
    with [exp] 2000 (seconds), the segment [e30] to the empty document and
    the segment [NQ==] to the number 5; nothing else decodes.  The text
    [45.50] reads as the number 45.5 and no other text reads as a number.
    Objects and arrays convert as parsed data does. *)
Definition example_platform : Platform :=
  {| atob := fun s =>
       if String.eqb s "body" then Some "claims"
       else if String.eqb s "e30" then Some "{}"
       else if String.eqb s "NQ==" then Some "5"
       else None;
     JSON_parse := fun s =>
       if String.eqb s "claims" then Some (Js.Object [("exp", Js.Number 2000)])
       else if String.eqb s "{}" then Some (Js.Object [])
       else if String.eqb s "5" then Some (Js.Number 5)
       else None;
     parseFloat := fun s => if String.eqb s "45.50" then 45.5%float else nan;
     StringToNumber := fun s => if String.eqb s "45.50" then 45.5%float else nan;
     NumberToString := fun _ => "NaN";
     ObjectToString := String_of_data (fun _ => "NaN");
     ObjectToNumber := fun v =>
       s ← String_of_data (fun _ => "NaN") v;
       Some (if String.eqb s "45.50" then 45.5%float else nan) |}.

(** A browser whose stored token has the middle segment [payload]. *)
Definition session_with_payload (payload : string) : Browser :=
  {| window_defined := true;
     localStorage := <["auth-token" := "head." +:+ payload +:+ ".sig"]> ∅;
     navigations := [] |}.

(** Item records for the examples. *)
Definition item_with (fields : list (string * Js.value)) : Js.value :=
  Js.Object (("name", Js.Str "Paneer Tikka") :: fields).

(** ** Price resolution in the words of the specification *)





(** A visitor without a session, and a location by its path. *)
Definition anonymous : AuthContext :=
  {| isAuthenticated := false; userRole := None; isTokenValid := true |}.

Definition at_path (path : string) : Location :=
  {| pathname := path; search := ""; hash := "" |}.

(** A catalogue with one category, Starters, holding one item. *)
Definition starters : Category.t :=
  {| Category.id := 1; Category.name := "Starters";
     Category.description := None; Category.imageUrl := None |}.

Definition paneer_tikka : MenuItem.t :=
  {| MenuItem.id := 10; MenuItem.name := "Paneer Tikka";
     MenuItem.description := None;
     MenuItem.fullPrice := 150%float; MenuItem.halfPrice := Some 90%float;
     MenuItem.preparationTime := 15%float; MenuItem.imageUrl := None;
     MenuItem.isAvailable := true; MenuItem.subcategory := None;
     MenuItem.tags := None; MenuItem.categoryId := 1 |}.


(** The category page with Starters chosen in the single dialog, and with
    Starters selected in the batch dialog. *)
Definition single_delete_open : CategoryAdmin.State :=
  {| CategoryAdmin.categories := [starters];
     CategoryAdmin.menuItems := [paneer_tikka];
     CategoryAdmin.currentCategory := Some starters;
     CategoryAdmin.deleteDialogOpen := true;
     CategoryAdmin.selectedCategories := [];
     CategoryAdmin.batchDeleteDialogOpen := false |}.

Definition batch_delete_open : CategoryAdmin.State :=
  {| CategoryAdmin.categories := [starters];
     CategoryAdmin.menuItems := [paneer_tikka];
     CategoryAdmin.currentCategory := None;
     CategoryAdmin.deleteDialogOpen := false;
     CategoryAdmin.selectedCategories := [1%Z];
     CategoryAdmin.batchDeleteDialogOpen := true |}.

(** The example built-ins, reading the role digits as numbers too. *)
Definition reading_platform : Platform :=
  {| atob := atob example_platform;
     JSON_parse := JSON_parse example_platform;
     parseFloat := parseFloat example_platform;
     StringToNumber := fun s =>
       if String.eqb s "0" then 0%float else if String.eqb s "1" then 1%float
       else if String.eqb s "2" then 2%float else if String.eqb s "3" then 3%float
       else if String.eqb s "4" then 4%float else nan;
     NumberToString := NumberToString example_platform;
     ObjectToString := ObjectToString example_platform;
     ObjectToNumber := ObjectToNumber example_platform |}.

(** A browser with nothing stored. *)
Definition fresh_browser : Browser :=
  {| window_defined := true; localStorage := ∅; navigations := [] |}.

Definition chef_login : LoginResult :=
  {| login_token := "head.body.sig";
     login_user := {| user_name := "Asha"; user_role := Some CHEF |} |}.


(** [{ ...order, paymentDetails: details }] *)
Definition with_paymentDetails (details : PaymentDetails.t) (o : WaiterOrder.t)
  : WaiterOrder.t :=
  WaiterOrder.mk (WaiterOrder.id o) (WaiterOrder.tableId o) (WaiterOrder.table o)
    (WaiterOrder.status o) (WaiterOrder.total o) (WaiterOrder.orderItems o)
    (WaiterOrder.createdAt o) (WaiterOrder.updatedAt o) (Some details).

(** ** The payment amounts in the words of the specification *)

(** The line totals [price_i x quantity_i] of an order. *)
Definition line_totals (order : WaiterOrder.t) : list float :=
  map (fun item => (price item * quantity item)%float) (WaiterOrder.orderItems order).

(** Their sum, taken in the order of the lines. *)
Definition sum_of (totals : list float) : float :=
  fold_left PrimFloat.add totals 0%float.

(** * Properties *)

(** ** Working sets and realtime events *)

Lemma some_id_filter_out (i : Z) (l : list WaiterOrder.t) :
  some_id i (filter_out_id i l) = false.
Proof.
  unfold some_id, filter_out_id.
  induction l as [|o l IH]; simpl; [reflexivity|].
  destruct (WaiterOrder.id o =? i)%Z eqn:E; simpl; [exact IH|].
  rewrite E. exact IH.
Qed.

Lemma filter_out_id_idem (i : Z) (l : list WaiterOrder.t) :
  filter_out_id i (filter_out_id i l) = filter_out_id i l.
Proof.
  unfold filter_out_id.
  induction l as [|o l IH]; simpl; [reflexivity|].
  destruct (WaiterOrder.id o =? i)%Z eqn:E; simpl; [exact IH|].
  rewrite E. simpl. now rewrite IH.
Qed.

Lemma replace_by_id_idem (u : WaiterOrder.t) (l : list WaiterOrder.t) :
  replace_by_id u (replace_by_id u l) = replace_by_id u l.
Proof.
  unfold replace_by_id. rewrite map_map. apply map_ext. intros o.
  destruct (WaiterOrder.id o =? WaiterOrder.id u)%Z eqn:E.
  - now rewrite Z.eqb_refl.
  - now rewrite E.
Qed.

Lemma count_id_filter_out (i : Z) (l : list WaiterOrder.t) :
  count_id i (filter_out_id i l) = 0%nat.
Proof.
  unfold count_id, filter_out_id.
  induction l as [|o l IH]; simpl; [reflexivity|].
  destruct (WaiterOrder.id o =? i)%Z eqn:E; simpl; [exact IH|].
  rewrite E. exact IH.
Qed.

Lemma count_id_replace (u : WaiterOrder.t) (l : list WaiterOrder.t) :
  count_id (WaiterOrder.id u) (replace_by_id u l) = count_id (WaiterOrder.id u) l.
Proof.
  unfold count_id, replace_by_id.
  induction l as [|o l IH]; simpl; [reflexivity|].
  destruct (WaiterOrder.id o =? WaiterOrder.id u)%Z eqn:E.
  - rewrite Z.eqb_refl. simpl. now rewrite IH.
  - rewrite E. exact IH.
Qed.

Lemma some_id_false_count (i : Z) (l : list WaiterOrder.t) :
  some_id i l = false -> count_id i l = 0%nat.
Proof.
  unfold some_id, count_id.
  induction l as [|o l IH]; simpl; [reflexivity|].
  destruct (WaiterOrder.id o =? i)%Z; simpl; [discriminate|exact IH].
Qed.

Lemma chef_event_adds_one (newOrder : WaiterOrder.t)
    (prevOrders : list ChefOrdersPage.DisplayOrder) :
  ChefOrdersPage.occurrences (WaiterOrder.id newOrder)
    (ChefOrdersPage.on_status_preparing newOrder prevOrders)
  = S (ChefOrdersPage.occurrences (WaiterOrder.id newOrder) prevOrders).
Proof.
  unfold ChefOrdersPage.occurrences, ChefOrdersPage.on_status_preparing.
  rewrite List.filter_app, length_app. simpl.
  unfold ChefOrdersPage.display_id at 2. simpl.
  rewrite Z.eqb_refl. simpl. lia.
Qed.

(** The waiter table, which listens to the same event, keeps one record per
    id: the sibling handler has the presence check the chef view lacks. *)
Lemma waiter_event_keeps_one (updatedOrder : WaiterOrder.t)
    (prevOrders : list ChefOrdersPage.DisplayOrder) :
  (ChefOrdersPage.occurrences (WaiterOrder.id updatedOrder) prevOrders <= 1)%nat ->
  ChefOrdersPage.occurrences (WaiterOrder.id updatedOrder)
    (WaiterOrdersPage.on_status_preparing updatedOrder prevOrders) = 1%nat.
Proof.
  unfold WaiterOrdersPage.on_status_preparing, ChefOrdersPage.occurrences.
  set (i := WaiterOrder.id updatedOrder).
  set (d := WaiterOrdersPage.displayOfEvent updatedOrder).
  assert (Hd : (ChefOrdersPage.display_id d =? i)%Z = true)
    by (subst d i; unfold ChefOrdersPage.display_id; simpl; apply Z.eqb_refl).
  intros Hle.
  induction prevOrders as [|o l IH]; simpl.
  - rewrite Hd. reflexivity.
  - simpl in Hle.
    destruct (ChefOrdersPage.display_id o =? i)%Z eqn:E; simpl.
    + rewrite Hd. simpl. simpl in Hle.
      assert (H0 : length (List.filter (fun d0 => (ChefOrdersPage.display_id d0 =? i)%Z) l) = 0%nat) by lia.
      f_equal.
      clear -H0. induction l as [|o' l' IH']; simpl; [reflexivity|].
      simpl in H0.
      destruct (ChefOrdersPage.display_id o' =? i)%Z eqn:E'; simpl in *; [discriminate|].
      rewrite E'. apply IH'. exact H0.
    + specialize (IH Hle).
      destruct (existsb (fun d0 => (ChefOrdersPage.display_id d0 =? i)%Z) l) eqn:Ex; simpl in *.
      * rewrite E. exact IH.
      * rewrite Hd in *. simpl in *. rewrite E. exact IH.
Qed.

(** C1 (the code at the failing input).  Order 42 is in the chef's working
    set after the initial fetch; the realtime "preparing" event for order 42
    is appended without a presence check, so the order is stored twice.  The
    same happens from an empty working set when the event arrives twice. *)
Theorem chef_preparing_event_duplicates_order :
  ChefOrdersPage.occurrences 42 (ChefOrdersPage.fetchPreparingOrders [order42]) = 1%nat /\
  ChefOrdersPage.occurrences 42
    (ChefOrdersPage.on_status_preparing order42
       (ChefOrdersPage.fetchPreparingOrders [order42])) = 2%nat /\
  ChefOrdersPage.occurrences 42
    (ChefOrdersPage.on_status_preparing order42
       (ChefOrdersPage.on_status_preparing order42 [])) = 2%nat.
Proof. repeat split; vm_compute; reflexivity. Qed.

Lemma some_id_cons_same (u : WaiterOrder.t) (l : list WaiterOrder.t) :
  some_id (WaiterOrder.id u) (u :: l) = true.
Proof. unfold some_id. simpl. now rewrite Z.eqb_refl. Qed.

Lemma pos_handleOrderUpdate_idem (u : WaiterOrder.t) (st : PosPage.State) :
  PosPage.handleOrderUpdate u (PosPage.handleOrderUpdate u st)
  = PosPage.handleOrderUpdate u st.
Proof.
  unfold PosPage.handleOrderUpdate.
  destruct (WaiterOrder.status u); try reflexivity.
  - (* DELIVERED *)
    destruct (some_id (WaiterOrder.id u) (PosPage.deliveredOrders st)) eqn:E;
      cbn [negb PosPage.deliveredOrders PosPage.setDeliveredOrders].
    + now rewrite E.
    + now rewrite some_id_cons_same.
  - (* COMPLETED *)
    destruct (some_id (WaiterOrder.id u) (PosPage.deliveredOrders st)) eqn:E;
      cbn [negb PosPage.deliveredOrders PosPage.setDeliveredOrders].
    + now rewrite some_id_filter_out.
    + now rewrite E.
Qed.

Lemma list_handleOrderUpdate_idem (p : DeliveredOrdersList.Props) (u : WaiterOrder.t)
    (st : DeliveredOrdersList.State) :
  fst (DeliveredOrdersList.handleOrderUpdate p u
         (fst (DeliveredOrdersList.handleOrderUpdate p u st)))
  = fst (DeliveredOrdersList.handleOrderUpdate p u st).
Proof.
  unfold DeliveredOrdersList.handleOrderUpdate.
  destruct (WaiterOrder.status u); try reflexivity.
  - (* DELIVERED *)
    destruct (some_id (WaiterOrder.id u) (DeliveredOrdersList.orders st)) eqn:E;
      cbn [negb fst DeliveredOrdersList.orders].
    + now rewrite E.
    + now rewrite some_id_cons_same.
  - (* COMPLETED *)
    destruct (String.eqb (DeliveredOrdersList.tabValue st) "all") eqn:T;
      cbn [fst DeliveredOrdersList.orders DeliveredOrdersList.tabValue].
    + rewrite T. cbn [fst]. now rewrite replace_by_id_idem.
    + destruct (DeliveredOrdersList.selected_is p (WaiterOrder.id u)) eqn:S;
        cbn [fst DeliveredOrdersList.orders DeliveredOrdersList.tabValue];
        rewrite T; cbn [fst]; now rewrite filter_out_id_idem.
Qed.

Lemma pos_handleOrderUpdate_count (u : WaiterOrder.t) (st : PosPage.State) :
  (count_id (WaiterOrder.id u) (PosPage.deliveredOrders (PosPage.handleOrderUpdate u st))
   <= Nat.max 1 (count_id (WaiterOrder.id u) (PosPage.deliveredOrders st)))%nat.
Proof.
  unfold PosPage.handleOrderUpdate.
  destruct (WaiterOrder.status u); try lia.
  - destruct (some_id (WaiterOrder.id u) (PosPage.deliveredOrders st)) eqn:E; simpl; [lia|].
    apply some_id_false_count in E. unfold count_id in *. simpl.
    rewrite Z.eqb_refl. simpl. lia.
  - destruct (some_id (WaiterOrder.id u) (PosPage.deliveredOrders st)) eqn:E; simpl; [|lia].
    rewrite count_id_filter_out. lia.
Qed.

Lemma list_handleOrderUpdate_count (p : DeliveredOrdersList.Props) (u : WaiterOrder.t)
    (st : DeliveredOrdersList.State) :
  (count_id (WaiterOrder.id u)
     (DeliveredOrdersList.orders (fst (DeliveredOrdersList.handleOrderUpdate p u st)))
   <= Nat.max 1 (count_id (WaiterOrder.id u) (DeliveredOrdersList.orders st)))%nat.
Proof.
  unfold DeliveredOrdersList.handleOrderUpdate.
  destruct (WaiterOrder.status u); simpl; try lia.
  - destruct (some_id (WaiterOrder.id u) (DeliveredOrdersList.orders st)) eqn:E; simpl; [lia|].
    apply some_id_false_count in E. unfold count_id in *. simpl.
    rewrite Z.eqb_refl. simpl. lia.
  - destruct (String.eqb (DeliveredOrdersList.tabValue st) "all"); simpl.
    + rewrite count_id_replace. lia.
    + destruct (DeliveredOrdersList.selected_is p (WaiterOrder.id u)); simpl;
        rewrite count_id_filter_out; lia.
Qed.

Lemma insert_or_replace_idem {A} (same : A -> bool) (d : A) (l : list A) :
  same d = true ->
  let handle := fun l : list A =>
    if negb (existsb same l) then d :: l
    else map (fun x => if same x then d else x) l in
  handle (handle l) = handle l.
Proof.
  intros Hd handle. subst handle. cbv beta.
  destruct (existsb same l) eqn:E; cbn [negb].
  - assert (E' : existsb same (map (fun x => if same x then d else x) l) = true).
    { apply existsb_exists in E as (x & Hx & Hs).
      apply existsb_exists. exists d. split; [|exact Hd].
      apply in_map_iff. exists x. now rewrite Hs. }
    rewrite E'. cbn [negb]. rewrite map_map. apply map_ext. intros x.
    destruct (same x) eqn:Hx; [now rewrite Hd|now rewrite Hx].
  - cbn [existsb]. rewrite Hd. cbn [orb negb map]. rewrite Hd. f_equal.
    rewrite <- (map_id l) at 2. apply map_ext_in. intros x Hx.
    destruct (same x) eqn:Hs; [|reflexivity].
    assert (existsb same l = true) by (apply existsb_exists; eauto). congruence.
Qed.

Lemma waiter_table_on_status_change_idem (u : WaiterOrder.t)
    (l : list ChefOrdersPage.DisplayOrder) :
  WaiterOrdersPage.on_status_change u (WaiterOrdersPage.on_status_change u l)
  = WaiterOrdersPage.on_status_change u l.
Proof.
  apply (insert_or_replace_idem
           (fun d0 => (ChefOrdersPage.display_id d0 =? WaiterOrder.id u)%Z)
           (WaiterOrdersPage.displayOfEvent u) l).
  apply Z.eqb_refl.
Qed.

Lemma findIndex_insert {A} (p : A -> bool) (d : A) (l : list A) (i : nat) :
  p d = true -> findIndex p l = Some i -> findIndex p (<[i := d]> l) = Some i.
Proof.
  intros Hd. revert i. induction l as [|x l IH]; intros i; simpl; [discriminate|].
  destruct (p x) eqn:Hx.
  - intros [= <-]. simpl. now rewrite Hd.
  - destruct (findIndex p l) as [j|] eqn:Hj; simpl; [|discriminate].
    intros [= <-]. simpl. rewrite Hx. now rewrite (IH j eq_refl).
Qed.

Lemma waiter_tabs_on_status_change_idem (u : WaiterOrder.t)
    (l : list ChefOrdersPage.DisplayOrder) :
  WaiterPage.on_status_change u (WaiterPage.on_status_change u l)
  = WaiterPage.on_status_change u l.
Proof.
  unfold WaiterPage.on_status_change.
  set (d := ChefOrdersPage.displayOfFetch u).
  set (same := fun d0 => (ChefOrdersPage.display_id d0 =? WaiterOrder.id u)%Z).
  assert (Hd : same d = true) by apply Z.eqb_refl.
  destruct (findIndex same l) as [i|] eqn:E.
  - rewrite (findIndex_insert same d l i Hd E). apply list_insert_insert_eq.
  - simpl. rewrite Hd. reflexivity.
Qed.

(** C2.  Reconciliation of a generic status-changed event is idempotent, in
    the POS page, in the delivered-orders list (in either tab) and in the two
    waiter views: handling the same event a second time leaves the state,
    the working set and its stored records included, as the first handling
    left it.  Insertion happens only when no record has the id, so an event
    never takes the number of records with its id above one (or above what
    it was). *)
Theorem status_change_reconciliation_idempotent :
  (forall (u : WaiterOrder.t) (st : PosPage.State),
      PosPage.handleOrderUpdate u (PosPage.handleOrderUpdate u st)
      = PosPage.handleOrderUpdate u st) /\
  (forall (p : DeliveredOrdersList.Props) (u : WaiterOrder.t)
          (st : DeliveredOrdersList.State),
      fst (DeliveredOrdersList.handleOrderUpdate p u
             (fst (DeliveredOrdersList.handleOrderUpdate p u st)))
      = fst (DeliveredOrdersList.handleOrderUpdate p u st)) /\
  (forall (u : WaiterOrder.t) (l : list ChefOrdersPage.DisplayOrder),
      WaiterOrdersPage.on_status_change u (WaiterOrdersPage.on_status_change u l)
      = WaiterOrdersPage.on_status_change u l) /\
  (forall (u : WaiterOrder.t) (l : list ChefOrdersPage.DisplayOrder),
      WaiterPage.on_status_change u (WaiterPage.on_status_change u l)
      = WaiterPage.on_status_change u l) /\
  (forall (u : WaiterOrder.t) (st : PosPage.State),
      (count_id (WaiterOrder.id u)
         (PosPage.deliveredOrders (PosPage.handleOrderUpdate u st))
       <= Nat.max 1 (count_id (WaiterOrder.id u) (PosPage.deliveredOrders st)))%nat) /\
  (forall (p : DeliveredOrdersList.Props) (u : WaiterOrder.t)
          (st : DeliveredOrdersList.State),
      (count_id (WaiterOrder.id u)
         (DeliveredOrdersList.orders (fst (DeliveredOrdersList.handleOrderUpdate p u st)))
       <= Nat.max 1 (count_id (WaiterOrder.id u) (DeliveredOrdersList.orders st)))%nat).
Proof.
  split; [exact pos_handleOrderUpdate_idem|].
  split; [exact list_handleOrderUpdate_idem|].
  split; [exact waiter_table_on_status_change_idem|].
  split; [exact waiter_tabs_on_status_change_idem|].
  split; [exact pos_handleOrderUpdate_count|exact list_handleOrderUpdate_count].
Qed.

(** ** POS payment *)




(** The scenario of the specification, evaluated: order 99 has subtotal 200
    and is paid at the default 5 percent with amountPaid 210. *)
Example order99_amountPaid :
  sum_of (line_totals order99) = 200%float /\
  OrderDetails.calculateTotal OrderDetails.initial order99 = 210%float.
Proof. split; vm_compute; reflexivity. Qed.

(** ** Error propagation in the orders client *)

Lemma try_catch_rethrow {A} (call : Outcome A) (msg : string) :
  settles (try_catch (response_data ← await call; mret response_data)
             (fun error => console_error msg;; throw error))
  = call.
Proof. destruct call; reflexivity. Qed.

(** The operations that log and rethrow settle exactly as the HTTP call. *)
Lemma ordersApi_rethrowing_operations :
  (forall c, settles (ordersApi.getAll c) = c GET "/orders" NoBody) /\
  (forall c i, settles (ordersApi.getById c i) = c GET ("/orders/" +:+ pretty i) NoBody) /\
  (forall c s, settles (ordersApi.getByStatus c s)
               = c GET ("/orders/status/" +:+ status_name s) NoBody) /\
  (forall c i s, settles (ordersApi.updateStatus c i s)
                 = c PATCH ("/orders/" +:+ pretty i +:+ "/status") (StatusBody s)) /\
  (forall c, settles (ordersApi.getWaiterDashboardOrders c)
             = c GET "/waiter/dashboard/orders" NoBody) /\
  (forall c i d, settles (ordersApi.completeOrder c i d)
                 = c POST "/orders/pos/complete" (CompleteOrderBody i d)).
Proof. repeat split; intros; apply try_catch_rethrow. Qed.

Lemma getDeliveredOrders_never_rejects (c : Transport (list WaiterOrder.t)) :
  settles (ordersApi.getDeliveredOrders c)
  = match c GET "/orders/pos/delivered" NoBody with
    | Resolved orders => Resolved orders
    | Rejected _ => Resolved []
    end.
Proof.
  unfold ordersApi.getDeliveredOrders.
  destruct (c GET "/orders/pos/delivered" NoBody); reflexivity.
Qed.

(** C4 (the code at the failing input).  With the network down,
    [ordersApi.getDeliveredOrders] logs the error and resolves with the empty
    list, while its sibling [ordersApi.getByStatus] rejects with the error;
    the POS page then shows an empty list and no error. *)
Theorem getDeliveredOrders_hides_failure :
  settles (ordersApi.getDeliveredOrders offline) = Resolved [] /\
  fst (ordersApi.getDeliveredOrders offline)
    = ["Error fetching delivered orders for POS:"] /\
  settles (ordersApi.getByStatus offline DELIVERED) = Rejected network_down /\
  PosPage.error (PosPage.fetchDeliveredOrders offline pos_with_order99) = None /\
  PosPage.deliveredOrders (PosPage.fetchDeliveredOrders offline pos_with_order99) = [].
Proof. repeat split; vm_compute; reflexivity. Qed.

(** ** Session: forced logout on 401, token expiry *)

Lemma strict_eq_str_spec (v : Js.value) (s : string) :
  Js.strict_eq_str v s = true <-> v = Js.Str s.
Proof.
  destruct v; simpl; try (split; [discriminate|intros [=]]).
  rewrite String.eqb_eq. split; [now intros ->|now intros [= ->]].
Qed.

Lemma logout_changes_browser (b : Browser) :
  window_defined b = true -> logout b <> b.
Proof.
  intros Hw Heq. apply (f_equal navigations) in Heq.
  unfold logout in Heq. rewrite Hw in Heq. simpl in Heq.
  apply (f_equal (@length string)) in Heq. simpl in Heq. lia.
Qed.

Lemma logout_clears_session (b : Browser) :
  window_defined b = true ->
  getItem "auth-token" (logout b) = None /\
  getItem "auth-role" (logout b) = None /\
  head (navigations (logout b)) = Some "/login".
Proof.
  intros Hw. unfold logout, getItem. rewrite Hw. simpl.
  split; [|split; [|reflexivity]].
  - rewrite lookup_delete_ne by discriminate. apply lookup_delete_eq.
  - apply lookup_delete_eq.
Qed.

(** C5.  For a response with status 401 that reaches the rejection handler
    of the shared client (in a browser), the handler logs the user out
    exactly when the payload's message is not the no-role signal; with the
    signal the browser state is untouched.  A logout clears the stored token
    and role and sends the browser to /login.  The error is passed on. *)
Theorem unauthorized_logout_unless_no_role (A : Type) (error : AxiosError)
    (r : HttpResponse) (b : Browser) :
  response error = Some r ->
  status r = 401%Z ->
  window_defined b = true ->
  let b' := fst (@response_interceptor A error b) in
  (b' = logout b <-> Js.opt_get (data r) "message" <> Js.Str no_role_message) /\
  (Js.opt_get (data r) "message" = Js.Str no_role_message -> b' = b) /\
  (b' = logout b ->
     getItem "auth-token" b' = None /\ getItem "auth-role" b' = None /\
     head (navigations b') = Some "/login") /\
  snd (@response_interceptor A error b) = Rejected error.
Proof.
  intros Hr Hs Hw. cbv zeta.
  unfold response_interceptor. rewrite Hr, Hs. simpl.
  destruct (Js.strict_eq_str (Js.opt_get (data r) "message") no_role_message) eqn:E; simpl.
  - apply strict_eq_str_spec in E.
    assert (Hno : b = logout b -> False).
    { intros Heq. symmetry in Heq. now apply logout_changes_browser in Heq. }
    split; [split|split; [|split]].
    + intros Heq. now apply Hno in Heq.
    + intros Hne. now destruct Hne.
    + reflexivity.
    + intros Heq. now apply Hno in Heq.
    + reflexivity.
  - assert (Hne : Js.opt_get (data r) "message" <> Js.Str no_role_message).
    { intros Heq. apply strict_eq_str_spec in Heq. congruence. }
    split; [split|split; [|split]].
    + intros _. exact Hne.
    + reflexivity.
    + intros Heq. now destruct Hne.
    + intros _. now apply logout_clears_session.
    + reflexivity.
Qed.

Lemma unauthorized_logout_unless_no_role_witness :
  fst (@response_interceptor unit (error_401 "Token expired") logged_in) = logout logged_in /\
  fst (@response_interceptor unit (error_401 no_role_message) logged_in) = logged_in.
Proof.
  split.
  - apply (proj1 (unauthorized_logout_unless_no_role unit (error_401 "Token expired")
                    _ logged_in eq_refl eq_refl eq_refl)).
    vm_compute. discriminate.
  - apply (proj1 (proj2 (unauthorized_logout_unless_no_role unit (error_401 no_role_message)
                    _ logged_in eq_refl eq_refl eq_refl))).
    reflexivity.
Defined.

Lemma split_empty (sep : ascii) : split sep "" = [""].
Proof. reflexivity. Qed.

(** What [isTokenExpired] answers for a stored token whose middle segment
    decodes and parses: the comparison of [decoded.exp] with the time, and
    true when reading [exp] or converting it throws. *)
Lemma isTokenExpired_decoded (js : Platform) (b : Browser) (now : float)
    (token payload raw : string) (decoded : Js.value) :
  getItem "auth-token" b = Some token ->
  split "." token !! 1%nat = Some payload ->
  payload <> "" ->
  atob js payload = Some raw ->
  JSON_parse js raw = Some decoded ->
  isTokenExpired js b now
  = default true (exp ← Js.get decoded "exp"; js_lt js exp (now / 1000)%float).
Proof.
  intros Ht Hs Hne Ha Hp. unfold isTokenExpired, isTokenExpired_try. rewrite Ht.
  destruct (String.eqb token "") eqn:Et.
  { apply String.eqb_eq in Et. subst token. rewrite split_empty in Hs. discriminate. }
  rewrite Hs.
  destruct (String.eqb payload "") eqn:Ep.
  { apply String.eqb_eq in Ep. contradiction. }
  rewrite Ha. simpl. rewrite Hp. reflexivity.
Qed.

(** A comparison of [NaN] with a number is false. *)
Lemma nan_ltb (x t : float) : PrimFloat.is_nan x = true -> (x <? t)%float = false.
Proof.
  unfold PrimFloat.is_nan. rewrite FloatAxioms.eqb_spec, FloatAxioms.ltb_spec. intros H.
  destruct (Prim2SF x) as [s|s| |s m e]; [| | reflexivity |].
  - destruct s; discriminate H.
  - destruct s; discriminate H.
  - exfalso. revert H. unfold SFeqb, SFcompare.
    destruct s; rewrite Z.compare_refl, Pos.compare_cont_refl; discriminate.
Qed.

(** Where the check is closed.  [isTokenExpired] answers true when no token
    is stored, when the token has no middle segment, when the segment fails
    to decode or to parse, when the parsed document is [null], when the
    conversion of [exp] for the comparison throws, and when [exp] is a number
    before the current time in seconds; for a numeric [exp] its answer is
    exactly that comparison. *)
Lemma isTokenExpired_closed_cases (js : Platform) (b : Browser) (now : float) :
  (getItem "auth-token" b = None -> isTokenExpired js b now = true) /\
  (forall token : string,
      getItem "auth-token" b = Some token ->
      (split "." token !! 1%nat = None \/
       exists payload : string,
         split "." token !! 1%nat = Some payload /\
         (atob js payload = None \/
          exists raw : string, atob js payload = Some raw /\
            (JSON_parse js raw = None \/
             JSON_parse js raw = Some Js.Null \/
             exists decoded exp : Js.value,
               JSON_parse js raw = Some decoded /\
               Js.get decoded "exp" = Some exp /\ ToNumber js exp = None))) ->
      isTokenExpired js b now = true) /\
  (forall (token payload raw : string) (decoded : Js.value) (e : float),
      getItem "auth-token" b = Some token ->
      split "." token !! 1%nat = Some payload ->
      payload <> "" ->
      atob js payload = Some raw ->
      JSON_parse js raw = Some decoded ->
      Js.get decoded "exp" = Some (Js.Number e) ->
      isTokenExpired js b now = (e <? now / 1000)%float).
Proof.
  split; [|split].
  - unfold isTokenExpired, isTokenExpired_try. intros ->. reflexivity.
  - unfold isTokenExpired, isTokenExpired_try. intros token -> H.
    destruct (String.eqb token ""); [reflexivity|].
    destruct H as [-> | (payload & -> & H)]; [reflexivity|].
    destruct (String.eqb payload ""); [reflexivity|].
    destruct H as [-> | (raw & -> & H)]; [reflexivity|]. simpl.
    destruct H as [-> | [-> | (decoded & exp & -> & Hg & Hn)]]; [reflexivity..|].
    simpl. rewrite Hg. simpl. unfold js_lt. rewrite Hn. reflexivity.
  - intros token payload raw decoded e Ht Hs Hne Ha Hp Hg.
    rewrite (isTokenExpired_decoded js b now token payload raw decoded Ht Hs Hne Ha Hp).
    rewrite Hg. reflexivity.
Qed.

(** An answer of false needs a stored token whose middle segment decodes
    and parses, but not an expiry: it is enough that [exp] converts to
    something that is not before the current time, [NaN] included. *)
Lemma isTokenExpired_false_inv (js : Platform) (b : Browser) (now : float) :
  isTokenExpired js b now = false ->
  exists (token payload raw : string) (decoded exp : Js.value) (x : float),
    getItem "auth-token" b = Some token /\
    split "." token !! 1%nat = Some payload /\
    atob js payload = Some raw /\
    JSON_parse js raw = Some decoded /\
    Js.get decoded "exp" = Some exp /\
    ToNumber js exp = Some x /\
    (x <? now / 1000)%float = false.
Proof.
  unfold isTokenExpired, isTokenExpired_try.
  destruct (getItem "auth-token" b) as [token|]; [|discriminate].
  destruct (String.eqb token ""); [discriminate|].
  destruct (split "." token !! 1%nat) as [payload|] eqn:Hs; [|discriminate].
  destruct (String.eqb payload ""); [discriminate|].
  destruct (atob js payload) as [raw|] eqn:Ha; [|discriminate]. simpl.
  destruct (JSON_parse js raw) as [decoded|] eqn:Hp; [|discriminate]. simpl.
  destruct (Js.get decoded "exp") as [exp|] eqn:Hg; [|discriminate]. simpl.
  unfold js_lt. destruct (ToNumber js exp) as [x|] eqn:Hn; [|discriminate]. simpl.
  intros [= H]. exists token, payload, raw, decoded, exp, x. auto 10.
Qed.

(** C6.  [isTokenExpired] is open where the claim has it closed.  A stored
    token whose middle segment decodes and parses to a document without a
    usable expiry (no [exp] at all, as in the empty document or a bare
    number, or an [exp] that is text not reading as a number) is answered
    false at every time: the token never expires, and [validateAuth] accepts
    it. *)
Theorem isTokenExpired_accepts_token_without_expiry (js : Platform) (b : Browser)
    (token payload raw : string) (decoded exp : Js.value) :
  getItem "auth-token" b = Some token ->
  split "." token !! 1%nat = Some payload ->
  payload <> "" ->
  atob js payload = Some raw ->
  JSON_parse js raw = Some decoded ->
  Js.get decoded "exp" = Some exp ->
  (exp = Js.Undefined \/
   exists s : string, exp = Js.Str s /\ PrimFloat.is_nan (StringToNumber js s) = true) ->
  forall now : float,
    isTokenExpired js b now = false /\ validateAuth js b now = true.
Proof.
  intros Ht Hs Hne Ha Hp Hg Hexp now.
  assert (He : isTokenExpired js b now = false).
  { rewrite (isTokenExpired_decoded js b now token payload raw decoded Ht Hs Hne Ha Hp).
    rewrite Hg. simpl. unfold js_lt.
    destruct Hexp as [-> | (s & -> & Hnan)]; simpl.
    - f_equal. apply nan_ltb. reflexivity.
    - f_equal. apply nan_ltb. exact Hnan. }
  split; [exact He|].
  unfold validateAuth. rewrite Ht, He.
  destruct (String.eqb token "") eqn:Et; [|reflexivity].
  apply String.eqb_eq in Et. subst token. rewrite split_empty in Hs. discriminate.
Qed.

(** The token [head.e30.sig], whose middle segment is the base64 text of the
    empty document, is not expired at millisecond 9 000 000 000 000, in the
    year 2255. *)
Lemma isTokenExpired_accepts_token_without_expiry_witness :
  isTokenExpired example_platform (session_with_payload "e30") 9000000000000%float = false /\
  validateAuth example_platform (session_with_payload "e30") 9000000000000%float = true.
Proof.
  apply (isTokenExpired_accepts_token_without_expiry example_platform
           (session_with_payload "e30") "head.e30.sig" "e30" "{}" (Js.Object [])
           Js.Undefined eq_refl eq_refl ltac:(discriminate) eq_refl eq_refl eq_refl
           (or_introl eq_refl) 9000000000000%float).
Defined.

(** Evaluated on the example session, whose token expires at second 2000:
    not expired at millisecond 1 000 000, expired at millisecond 3 000 000,
    expired when the middle segment does not decode or no token is stored;
    and a token whose document is the bare number 5 counts as not expired. *)
Example isTokenExpired_examples :
  isTokenExpired example_platform logged_in 1000000%float = false /\
  isTokenExpired example_platform logged_in 3000000%float = true /\
  isTokenExpired example_platform (session_with_payload "garbage") 1000000%float = true /\
  isTokenExpired example_platform (logout logged_in) 1000000%float = true /\
  validateAuth example_platform logged_in 1000000%float = true /\
  isTokenExpired example_platform (session_with_payload "NQ==") 9000000000000%float = false.
Proof. repeat split; vm_compute; reflexivity. Qed.

(** ** Price resolution *)

Lemma get_of_truthy (item : Js.value) (k : string) :
  Js.falsy item = false -> Js.get item k = Some (Js.opt_get item k).
Proof.
  unfold Js.opt_get. destruct item; simpl; try discriminate; reflexivity.
Qed.





Lemma getItemPrice_truthy (js : Platform) (item : Js.value) (isHalfPortion : bool) :
  Js.falsy item = false ->
  getItemPrice js item isHalfPortion =
  if isHalfPortion && Js.present (Js.opt_get item "halfPrice")
  then price_or_zero js (Js.opt_get item "halfPrice")
  else if Js.present (Js.opt_get item "fullPrice")
  then price_or_zero js (Js.opt_get item "fullPrice")
  else if Js.present (Js.opt_get item "price")
  then price_or_zero js (Js.opt_get item "price")
  else Some 0%float.
Proof.
  intros Ht. unfold getItemPrice. rewrite Ht.
  rewrite !(get_of_truthy item) by exact Ht.
  destruct isHalfPortion; simpl.
  - destruct (Js.present (Js.opt_get item "halfPrice")); simpl; [reflexivity|].
    destruct (Js.present (Js.opt_get item "fullPrice")); simpl; [reflexivity|].
    destruct (Js.present (Js.opt_get item "price")); reflexivity.
  - destruct (Js.present (Js.opt_get item "fullPrice")); simpl; [reflexivity|].
    destruct (Js.present (Js.opt_get item "price")); reflexivity.
Qed.




(** The rules on item records: half price 90; no half price, full price
    150; only the legacy price 120; a half price that is present and not
    numeric, with a full price beside it; no item at all. *)
Example getItemPrice_examples :
  getItemPrice example_platform
    (item_with [("fullPrice", Js.Number 150); ("halfPrice", Js.Number 90)]) true
    = Some 90%float /\
  getItemPrice example_platform
    (item_with [("fullPrice", Js.Number 150); ("halfPrice", Js.Null)]) true
    = Some 150%float /\
  getItemPrice example_platform (item_with [("price", Js.Number 120)]) true
    = Some 120%float /\
  getItemPrice example_platform
    (item_with [("fullPrice", Js.Number 150); ("halfPrice", Js.Str "n/a")]) true
    = Some 0%float /\
  getItemPrice example_platform Js.Undefined true = Some 0%float.
Proof. repeat split; vm_compute; reflexivity. Qed.

(** ** Route guards *)

Lemma find_route_AuthGuard (path : string) (e : Element) :
  find_route path routes = Some e ->
  guarded_by_AuthGuard path = true ->
  exists children, e = AuthGuard children.
Proof.
  unfold guarded_by_AuthGuard. intros ->.
  destruct e; try discriminate. intros _. now eexists.
Qed.

(** Which of the dashboard routes are wrapped in [AuthGuard]: the admin and
    POS routes are, the chef and waiter routes are not. *)
Lemma guarded_dashboard_routes :
  map guarded_by_AuthGuard protected_paths
  = [true; true; true; true; true; true; true; true; false; false; false; false; false].
Proof. vm_compute. reflexivity. Qed.

(** The chef and waiter routes show their view to any visitor. *)
Lemma chef_waiter_routes_unguarded (auth : AuthContext) (search hash : string) :
  App auth {| pathname := "/chef"; search := search; hash := hash |} = Shows ChefDashboard /\
  App auth {| pathname := "/chef/orders"; search := search; hash := hash |} = Shows ChefOrdersPage /\
  App auth {| pathname := "/waiter"; search := search; hash := hash |} = Shows WaiterDashboard /\
  App auth {| pathname := "/waiter/orders"; search := search; hash := hash |}
    = Shows WaiterOrdersPage /\
  App auth {| pathname := "/waiter/ordersKOT"; search := search; hash := hash |}
    = Shows WaiterOrdersKOTPage.
Proof. repeat split. Qed.

(** The routes wrapped in [AuthGuard], which the root, the admin routes and
    the POS route are, redirect an unauthenticated visitor to the login
    route with the requested location; the chef and waiter routes are not
    wrapped and show their view. *)
Lemma AuthGuard_routes_redirect_unauthenticated (auth : AuthContext)
    (location : Location) :
  isAuthenticated auth = false ->
  (guarded_by_AuthGuard (pathname location) = true ->
   App auth location = Redirects "/login" (Some location)) /\
  (In (pathname location) ("/" :: admin_pos_paths) ->
   guarded_by_AuthGuard (pathname location) = true) /\
  (In (pathname location) chef_waiter_paths ->
   guarded_by_AuthGuard (pathname location) = false /\
   exists p : Page, App auth location = Shows p).
Proof.
  intros Hu. split; [|split].
  - intros Hg. unfold App, route_element.
    destruct (find_route (pathname location) routes) as [e|] eqn:Hf.
    + destruct (find_route_AuthGuard _ _ Hf Hg) as [children ->].
      simpl. now rewrite Hu.
    + unfold guarded_by_AuthGuard in Hg. rewrite Hf in Hg. discriminate.
  - intros Hin. simpl in Hin.
    repeat (destruct Hin as [<-|Hin]; [reflexivity|]). destruct Hin.
  - intros Hin. unfold App. simpl in Hin.
    repeat (destruct Hin as [<-|Hin]; [split; [reflexivity|eexists; reflexivity]|]).
    destruct Hin.
Qed.

Lemma AuthGuard_routes_redirect_unauthenticated_example :
  App anonymous (at_path "/posAdmin/pos")
  = Redirects "/login" (Some (at_path "/posAdmin/pos")).
Proof.
  exact (proj1 (AuthGuard_routes_redirect_unauthenticated anonymous
                  (at_path "/posAdmin/pos") eq_refl) eq_refl).
Defined.

(** C8.  The chef and waiter routes are protected routes mounted without a
    guard.  An unauthenticated visitor of each of them is shown the view and
    is not redirected to the login route, while every admin route and the
    POS route redirect the same visitor to login with the requested
    location; so the claim, stated for every protected route, fails. *)
Theorem chef_route_shown_to_unauthenticated :
  map (fun path => App anonymous (at_path path)) chef_waiter_paths
  = [ Shows ChefDashboard; Shows ChefOrdersPage; Shows WaiterDashboard;
      Shows WaiterOrdersPage; Shows WaiterOrdersKOTPage ] /\
  (forall path : string,
      In path admin_pos_paths ->
      App anonymous (at_path path) = Redirects "/login" (Some (at_path path))) /\
  ~ (forall (path : string) (auth : AuthContext) (location : Location),
        In path protected_paths ->
        pathname location = path ->
        isAuthenticated auth = false ->
        App auth location = Redirects "/login" (Some location)).
Proof.
  split; [reflexivity|]. split.
  - intros path Hin. simpl in Hin.
    repeat (destruct Hin as [<-|Hin]; [reflexivity|]). destruct Hin.
  - intros H.
    specialize (H "/chef" anonymous (at_path "/chef")).
    assert (Hin : In "/chef" protected_paths) by (vm_compute; tauto).
    specialize (H Hin eq_refl eq_refl).
    vm_compute in H. discriminate.
Qed.

(** ** Category deletion *)

(** The single-category dialog blocks: a delete request it can cause is for
    a category no menu item references. *)
Lemma single_delete_needs_no_items (st : CategoryAdmin.State) (categoryId : Z) :
  In categoryId (CategoryAdmin.single_delete_requests st) ->
  CategoryAdmin.getCategoryItemCount st categoryId = 0%nat.
Proof.
  unfold CategoryAdmin.single_delete_requests, DeleteCategoryConfirmDialog.can_confirm,
    DeleteCategoryConfirmDialog.render, CategoryAdmin.deleteDialog,
    CategoryAdmin.handleDeleteCategory.
  destruct (CategoryAdmin.currentCategory st) as [c|]; simpl; [|tauto].
  destruct (CategoryAdmin.deleteDialogOpen st); simpl; [|tauto].
  rewrite orb_false_r.
  destruct (CategoryAdmin.getCategoryItemCount st (Category.id c)) eqn:E; simpl; [|tauto].
  intros [<-|[]]. exact E.
Qed.

(** The batch dialog always offers Delete when it is open and something is
    selected: its description is never empty. *)
Lemma batch_delete_never_blocked (st : CategoryAdmin.State) :
  CategoryAdmin.batchDeleteDialogOpen st = true ->
  CategoryAdmin.batch_delete_requests st = CategoryAdmin.selectedCategories st.
Proof.
  intros Ho.
  unfold CategoryAdmin.batch_delete_requests, DeleteCategoryConfirmDialog.can_confirm,
    DeleteCategoryConfirmDialog.render, CategoryAdmin.batchDeleteDialog,
    CategoryAdmin.handleBatchDeleteCategories.
  cbn -[pretty fold_left Nat.ltb]. rewrite Ho. cbn -[pretty fold_left Nat.ltb].
  rewrite orb_true_r.
  destruct (CategoryAdmin.selectedCategories st); reflexivity.
Qed.

(** C9 (the code at the failing input).  Starters is referenced by one menu
    item.  The single dialog offers no Delete and causes no request; the
    batch dialog, given the same count, still offers Delete, and confirming
    it issues the delete request for Starters. *)
Theorem batch_delete_ignores_item_count :
  CategoryAdmin.getCategoryItemCount batch_delete_open 1 = 1%nat /\
  DeleteCategoryConfirmDialog.itemCount (CategoryAdmin.batchDeleteDialog batch_delete_open)
    = Some 1%nat /\
  DeleteCategoryConfirmDialog.can_confirm (CategoryAdmin.batchDeleteDialog batch_delete_open)
    = true /\
  CategoryAdmin.batch_delete_requests batch_delete_open = [1%Z] /\
  DeleteCategoryConfirmDialog.can_confirm (CategoryAdmin.deleteDialog single_delete_open)
    = false /\
  CategoryAdmin.single_delete_requests single_delete_open = [].
Proof. repeat split; vm_compute; reflexivity. Qed.

(** ** Chef item availability *)


Lemma with_isAvailable_same (i : MenuItem.t) :
  MenuItem.with_isAvailable (MenuItem.isAvailable i) i = i.
Proof. now destruct i. Qed.

Lemma revert_flip_entry (item i : MenuItem.t) :
  (MenuItem.id i =? MenuItem.id item)%Z = true ->
  MenuItem.isAvailable i = MenuItem.isAvailable item ->
  MenuItem.with_isAvailable (MenuItem.isAvailable item)
    (MenuItem.with_isAvailable (negb (MenuItem.isAvailable i)) i) = i.
Proof. intros _ <-. now destruct i. Qed.



(** * Further properties of the modelled code *)

(** ** Session helpers, provider and shared client *)

Lemma isTokenExpired_depends_on_token (js : Platform) (b1 b2 : Browser) (now : float) :
  getItem "auth-token" b1 = getItem "auth-token" b2 ->
  isTokenExpired js b1 now = isTokenExpired js b2 now.
Proof. unfold isTokenExpired, isTokenExpired_try. now intros ->. Qed.

(** X1.  [validateAuth] is the negation of [isTokenExpired] in every state of
    the storage: its own check for a missing token never decides. *)
Theorem validateAuth_is_not_expired (js : Platform) (b : Browser) (now : float) :
  validateAuth js b now = negb (isTokenExpired js b now).
Proof.
  unfold validateAuth, isTokenExpired, isTokenExpired_try.
  destruct (getItem "auth-token" b) as [token|]; [|reflexivity].
  destruct (String.eqb token ""); reflexivity.
Qed.

(** X2.  In a browser, after [logout] the session is over for every later
    check: the token counts as expired, [validateAuth] fails, requests get
    no Authorization header added, a remount of the provider stays signed
    out, and a second [logout] changes nothing in the storage. *)
Theorem logout_ends_session (js : Platform) (b : Browser) (now : float)
    (headers : gmap string string) :
  window_defined b = true ->
  isTokenExpired js (logout b) now = true /\
  validateAuth js (logout b) now = false /\
  request_interceptor (logout b) headers = headers /\
  AuthProvider.on_mount js now AuthProvider.signed_out (logout b)
    = (AuthProvider.signed_out, logout b) /\
  localStorage (logout (logout b)) = localStorage (logout b).
Proof.
  intros Hw.
  destruct (logout_clears_session b Hw) as (Ht & _ & _).
  assert (He : isTokenExpired js (logout b) now = true).
  { unfold isTokenExpired, isTokenExpired_try. now rewrite Ht. }
  split; [exact He|].
  split; [unfold validateAuth; now rewrite Ht|].
  split; [unfold request_interceptor; rewrite Ht; now destruct (window_defined (logout b))|].
  split; [unfold AuthProvider.on_mount; now rewrite Ht|].
  unfold logout. rewrite Hw. simpl. rewrite Hw. simpl.
  apply map_eq. intros k. rewrite !lookup_delete.
  repeat case_decide; reflexivity.
Qed.

Lemma logout_ends_session_witness :
  isTokenExpired example_platform (logout logged_in) 1000000%float = true /\
  validateAuth example_platform (logout logged_in) 1000000%float = false.
Proof.
  pose proof (logout_ends_session example_platform logged_in 1000000%float ∅ eq_refl) as H.
  exact (conj (proj1 H) (proj1 (proj2 H))).
Defined.

(** X3.  After [login] with a non-empty token, the next request carries
    that token as its bearer, whatever bearer the headers had, and its other
    headers are untouched; after the provider's logout no bearer is added. *)
Theorem login_sets_bearer_logout_drops_it (newToken : string) (role : option Role)
    (st : AuthProvider.State) (b : Browser) (headers : gmap string string) :
  window_defined b = true ->
  newToken <> "" ->
  let signed_in := snd (AuthProvider.login newToken role st b) in
  request_interceptor signed_in headers !! "Authorization" = Some ("Bearer " +:+ newToken) /\
  (forall k : string, k <> "Authorization" ->
     request_interceptor signed_in headers !! k = headers !! k) /\
  request_interceptor (snd (AuthProvider.handleLogout st signed_in)) headers = headers.
Proof.
  intros Hw Hne. cbv zeta.
  assert (Ht : getItem "auth-token" (snd (AuthProvider.login newToken role st b))
               = Some newToken).
  { unfold AuthProvider.login, getItem.
    destruct role; simpl.
    - rewrite lookup_insert_ne by discriminate. apply lookup_insert_eq.
    - rewrite lookup_delete_ne by discriminate. apply lookup_insert_eq. }
  assert (Hw' : window_defined (snd (AuthProvider.login newToken role st b)) = true).
  { unfold AuthProvider.login. destruct role; exact Hw. }
  assert (He : String.eqb newToken "" = false) by now apply String.eqb_neq.
  unfold request_interceptor at 1 2. rewrite Hw', Ht, He.
  split; [apply lookup_insert_eq|].
  split; [intros k Hk; now apply lookup_insert_ne|].
  unfold AuthProvider.handleLogout. cbn [snd].
  destruct (logout_clears_session _ Hw') as (Hc & _).
  unfold request_interceptor. rewrite Hc. now destruct (window_defined (logout _)).
Qed.

Lemma login_sets_bearer_logout_drops_it_witness :
  request_interceptor
    (snd (AuthProvider.login "head.body.sig" (Some CHEF) AuthProvider.signed_out fresh_browser))
    ∅ !! "Authorization" = Some "Bearer head.body.sig".
Proof.
  apply (login_sets_bearer_logout_drops_it "head.body.sig" (Some CHEF)
           AuthProvider.signed_out fresh_browser ∅ eq_refl).
  discriminate.
Defined.

(** X4.  The response interceptor touches the browser for status 401 only:
    an error without a response (network failure) or with any other status
    leaves storage and location as they were, and in every case the error
    itself is what the caller is rejected with. *)
Theorem response_interceptor_only_acts_on_401 (A : Type) (error : AxiosError)
    (b : Browser) :
  (response error = None -> fst (@response_interceptor A error b) = b) /\
  (forall r : HttpResponse,
      response error = Some r -> status r <> 401%Z ->
      fst (@response_interceptor A error b) = b) /\
  (window_defined b = false -> fst (@response_interceptor A error b) = b) /\
  snd (@response_interceptor A error b) = Rejected error.
Proof.
  unfold response_interceptor. simpl. repeat split.
  - now intros ->.
  - intros r -> Hs. apply Z.eqb_neq in Hs. now rewrite Hs.
  - intros Hw. unfold logout. rewrite Hw.
    destruct (response error) as [r|]; [|reflexivity].
    destruct (status r =? 401)%Z; [|reflexivity].
    now destruct (negb _).
Qed.

(** X5.  Each operation of the orders client that rethrows settles exactly
    as its HTTP call and writes one console line when the call fails and
    none when it succeeds; [getDeliveredOrders] writes the same single line
    on failure but resolves. *)
Theorem ordersApi_logs_once_and_rethrows :
  (forall c : Transport (list WaiterOrder.t),
      let call := c GET "/orders" NoBody in
      settles (ordersApi.getAll c) = call /\
      length (fst (ordersApi.getAll c))
        = match call with Resolved _ => 0%nat | Rejected _ => 1%nat end) /\
  (forall (c : Transport WaiterOrder.t) (i : Z),
      let call := c GET ("/orders/" +:+ pretty i) NoBody in
      settles (ordersApi.getById c i) = call /\
      length (fst (ordersApi.getById c i))
        = match call with Resolved _ => 0%nat | Rejected _ => 1%nat end) /\
  (forall (c : Transport (list WaiterOrder.t)) (s : OrderStatus),
      let call := c GET ("/orders/status/" +:+ status_name s) NoBody in
      settles (ordersApi.getByStatus c s) = call /\
      length (fst (ordersApi.getByStatus c s))
        = match call with Resolved _ => 0%nat | Rejected _ => 1%nat end) /\
  (forall (c : Transport WaiterOrder.t) (i : Z) (s : OrderStatus),
      let call := c PATCH ("/orders/" +:+ pretty i +:+ "/status") (StatusBody s) in
      settles (ordersApi.updateStatus c i s) = call /\
      length (fst (ordersApi.updateStatus c i s))
        = match call with Resolved _ => 0%nat | Rejected _ => 1%nat end) /\
  (forall c : Transport WaiterDashboardOrders,
      let call := c GET "/waiter/dashboard/orders" NoBody in
      settles (ordersApi.getWaiterDashboardOrders c) = call /\
      length (fst (ordersApi.getWaiterDashboardOrders c))
        = match call with Resolved _ => 0%nat | Rejected _ => 1%nat end) /\
  (forall (c : Transport CompleteOrderResult) (i : Z) (d : PaymentDetails.t),
      let call := c POST "/orders/pos/complete" (CompleteOrderBody i d) in
      settles (ordersApi.completeOrder c i d) = call /\
      length (fst (ordersApi.completeOrder c i d))
        = match call with Resolved _ => 0%nat | Rejected _ => 1%nat end) /\
  (forall c : Transport (list WaiterOrder.t),
      let call := c GET "/orders/pos/delivered" NoBody in
      (forall e, settles (ordersApi.getDeliveredOrders c) <> Rejected e) /\
      length (fst (ordersApi.getDeliveredOrders c))
        = match call with Resolved _ => 0%nat | Rejected _ => 1%nat end).
Proof.
  repeat split; intros; cbv zeta;
    first [ apply try_catch_rethrow
          | unfold ordersApi.getAll, ordersApi.getById, ordersApi.getByStatus,
              ordersApi.updateStatus, ordersApi.getWaiterDashboardOrders,
              ordersApi.completeOrder, ordersApi.getDeliveredOrders;
            match goal with |- context [await ?call] => destruct call end;
            first [reflexivity | discriminate] ].
Qed.

Lemma no_role_error_not_logged_out (A : Type) (error : AxiosError) (b : Browser) :
  is_no_role_error error = true ->
  @response_interceptor A error b = (b, Rejected error).
Proof.
  unfold is_no_role_error, response_interceptor.
  destruct (response error) as [r|]; [|discriminate].
  intros H. apply andb_true_iff in H as [-> ->]. reflexivity.
Qed.

Lemma authApi_login_rejects (error : AxiosError) :
  settles (authApi.login (Rejected error))
  = Rejected (if is_no_role_error error then new_Error no_role_message else error).
Proof. unfold authApi.login. simpl. now destruct (is_no_role_error error). Qed.

Lemma other_401_logged_out (A : Type) (error : AxiosError) (r : HttpResponse) (b : Browser) :
  response error = Some r -> status r = 401%Z -> is_no_role_error error = false ->
  @response_interceptor A error b = (logout b, Rejected error).
Proof.
  unfold is_no_role_error, response_interceptor. intros -> ->. simpl. now intros ->.
Qed.

(** X6.  The login form.  A refusal that carries the no-role signal (401
    with that message) logs nobody out, leaves session and storage as they
    were and sends the user to the onboarding screen; any other 401 goes
    through the forced logout and navigates nowhere; a success stores the
    token, stores the role exactly when the server sent one, and navigates
    to the root. *)
Theorem login_form_outcomes (st : AuthProvider.State) (b : Browser) :
  (forall error : AxiosError,
      is_no_role_error error = true ->
      AuthForm.onSubmit_login (Rejected error) st b
      = {| AuthForm.session := st; AuthForm.browser := b;
           AuthForm.navigated := Some "/newUser" |}) /\
  (forall (error : AxiosError) (r : HttpResponse),
      response error = Some r -> status r = 401%Z ->
      is_no_role_error error = false ->
      reason error <> no_role_message ->
      AuthForm.onSubmit_login (Rejected error) st b
      = {| AuthForm.session := st; AuthForm.browser := logout b;
           AuthForm.navigated := None |}) /\
  (forall r : LoginResult,
      let res := AuthForm.onSubmit_login (Resolved r) st b in
      AuthForm.navigated res = Some "/" /\
      AuthProvider.token (AuthForm.session res) = Some (login_token r) /\
      getItem "auth-token" (AuthForm.browser res) = Some (login_token r) /\
      getItem "auth-role" (AuthForm.browser res)
        = (fun role => pretty (role_number role)) <$> user_role (login_user r)).
Proof.
  split; [|split].
  - intros error He. unfold AuthForm.onSubmit_login, apiClient_call.
    rewrite (no_role_error_not_logged_out _ error b He).
    rewrite authApi_login_rejects, He. reflexivity.
  - intros error r Hr Hs Hn Hm. unfold AuthForm.onSubmit_login, apiClient_call.
    rewrite (other_401_logged_out _ error r b Hr Hs Hn).
    rewrite authApi_login_rejects, Hn.
    apply String.eqb_neq in Hm. now rewrite Hm.
  - intros r. cbv zeta. unfold AuthForm.onSubmit_login, apiClient_call.
    simpl. unfold AuthProvider.login, getItem.
    destruct (user_role (login_user r)); simpl.
    + repeat split.
      * rewrite lookup_insert_ne by discriminate. apply lookup_insert_eq.
      * apply lookup_insert_eq.
    + repeat split.
      * rewrite lookup_delete_ne by discriminate. apply lookup_insert_eq.
      * apply lookup_delete_eq.
Qed.

(** The three outcomes on examples: the no-role refusal, an expired-token
    refusal, and a chef signing in. *)
Example login_form_examples :
  AuthForm.navigated
    (AuthForm.onSubmit_login (Rejected (error_401 no_role_message))
       AuthProvider.signed_out fresh_browser) = Some "/newUser" /\
  AuthForm.browser
    (AuthForm.onSubmit_login (Rejected (error_401 "Invalid credentials"))
       AuthProvider.signed_out logged_in) = logout logged_in /\
  getItem "auth-role"
    (AuthForm.browser
       (AuthForm.onSubmit_login (Resolved chef_login) AuthProvider.signed_out fresh_browser))
    = Some "1".
Proof. repeat split; vm_compute; reflexivity. Qed.

(** X7.  On mount the provider is authenticated exactly when [validateAuth]
    holds for the stored token: a valid token is adopted and the storage is
    left alone, and a stored token that is not valid triggers the logout. *)
Theorem provider_mount_matches_validateAuth (js : Platform) (now : float) (b : Browser) :
  let mounted := AuthProvider.on_mount js now AuthProvider.signed_out b in
  AuthProvider.isAuthenticated (fst mounted) = validateAuth js b now /\
  (validateAuth js b now = true ->
     snd mounted = b /\ AuthProvider.token (fst mounted) = getItem "auth-token" b) /\
  (forall t : string,
      getItem "auth-token" b = Some t -> t <> "" -> validateAuth js b now = false ->
      mounted = (AuthProvider.signed_out, logout b)).
Proof.
  cbv zeta. unfold AuthProvider.on_mount, validateAuth.
  destruct (getItem "auth-token" b) as [t|] eqn:Ht.
  - destruct (String.eqb t "") eqn:Et.
    + split; [reflexivity|]. split; [discriminate|].
      intros t' [= <-] Hne. apply String.eqb_eq in Et. contradiction.
    + destruct (isTokenExpired js b now) eqn:Hx; simpl.
      * split; [reflexivity|]. split; [discriminate|]. reflexivity.
      * split; [unfold AuthProvider.isAuthenticated; simpl; now rewrite Et|].
        split; [now split|]. discriminate.
  - split; [reflexivity|]. split; [discriminate|]. discriminate.
Qed.

Lemma role_digits (r : Role) :
  String.eqb (pretty (role_number r)) "" = false /\
  PrimFloat.is_nan (role_value r) = false.
Proof. destruct r; split; vm_compute; reflexivity. Qed.

(** X8.  A login survives a reload: when the token given at login is not
    expired and the platform reads the stored role digit back as its number,
    mounting the provider afresh on the storage that [login] left restores
    the very session state of the login, role included, without touching
    the storage; a login without role comes back without role. *)
Theorem login_survives_reload (js : Platform) (now : float) (newToken : string)
    (role : option Role) (st : AuthProvider.State) (b : Browser) :
  newToken <> "" ->
  isTokenExpired js (setItem "auth-token" newToken b) now = false ->
  (forall r : Role, role = Some r ->
     StringToNumber js (pretty (role_number r)) = role_value r) ->
  AuthProvider.on_mount js now AuthProvider.signed_out
    (snd (AuthProvider.login newToken role st b))
  = AuthProvider.login newToken role st b.
Proof.
  intros Hne Hx Hread.
  assert (He : String.eqb newToken "" = false) by now apply String.eqb_neq.
  unfold AuthProvider.login.
  destruct role as [r|]; simpl.
  - unfold AuthProvider.on_mount.
    assert (Ht : getItem "auth-token"
                   (setItem "auth-role" (pretty (role_number r))
                      (setItem "auth-token" newToken b)) = Some newToken).
    { unfold getItem. simpl. rewrite lookup_insert_ne by discriminate.
      apply lookup_insert_eq. }
    rewrite Ht, He.
    rewrite (isTokenExpired_depends_on_token js _ (setItem "auth-token" newToken b) now)
      by (rewrite Ht; unfold getItem; simpl; now rewrite lookup_insert_eq).
    rewrite Hx. simpl.
    assert (Hr : getItem "auth-role"
                   (setItem "auth-role" (pretty (role_number r))
                      (setItem "auth-token" newToken b))
                 = Some (pretty (role_number r))).
    { unfold getItem. simpl. apply lookup_insert_eq. }
    rewrite Hr. destruct (role_digits r) as [-> Hn].
    rewrite (Hread r eq_refl), Hn. reflexivity.
  - unfold AuthProvider.on_mount.
    assert (Ht : getItem "auth-token"
                   (removeItem "auth-role" (setItem "auth-token" newToken b))
                 = Some newToken).
    { unfold getItem. simpl. rewrite lookup_delete_ne by discriminate.
      apply lookup_insert_eq. }
    rewrite Ht, He.
    rewrite (isTokenExpired_depends_on_token js _ (setItem "auth-token" newToken b) now)
      by (rewrite Ht; unfold getItem; simpl; now rewrite lookup_insert_eq).
    rewrite Hx. simpl.
    assert (Hr : getItem "auth-role"
                   (removeItem "auth-role" (setItem "auth-token" newToken b)) = None).
    { unfold getItem. simpl. apply lookup_delete_eq. }
    rewrite Hr. reflexivity.
Qed.

Lemma login_survives_reload_witness :
  AuthProvider.on_mount reading_platform 1000000%float AuthProvider.signed_out
    (snd (AuthProvider.login "head.body.sig" (Some CHEF) AuthProvider.signed_out fresh_browser))
  = AuthProvider.login "head.body.sig" (Some CHEF) AuthProvider.signed_out fresh_browser.
Proof.
  apply (login_survives_reload reading_platform 1000000%float "head.body.sig" (Some CHEF)
           AuthProvider.signed_out fresh_browser).
  - discriminate.
  - vm_compute. reflexivity.
  - intros r [= <-]. vm_compute. reflexivity.
Defined.

(** ** Routes and guards *)

(** X9.  The POS route shows the POS page exactly to an authenticated
    session with a valid token whose role is admin or POS admin; an
    authenticated session with a valid token and any other role (or none) is
    sent to the root, and everyone else to the login route. *)
Theorem pos_route_access (auth : AuthContext) (location : Location) :
  pathname location = "/posAdmin/pos" ->
  (App auth location = Shows PosPage <->
   isAuthenticated auth = true /\ isTokenValid auth = true /\
   (userRole auth = Some ADMIN \/ userRole auth = Some POS_ADMIN)) /\
  (isAuthenticated auth = true -> isTokenValid auth = true ->
   userRole auth <> Some ADMIN -> userRole auth <> Some POS_ADMIN ->
   App auth location = Redirects "/" None) /\
  (isAuthenticated auth = false \/ isTokenValid auth = false ->
   App auth location = Redirects "/login" (Some location)).
Proof.
  intros Hp. unfold App. rewrite Hp. simpl. rewrite Hp. simpl.
  destruct auth as [a [r|] v]; simpl; destruct a, v; simpl;
    try destruct r; simpl;
    (split; [split; [intros H; try discriminate H; auto | intros (Ha & Hv & [Hr|Hr]);
                                                          congruence]|]);
    (split; [intros; congruence|]);
    intros [H|H]; congruence.
Qed.

Lemma pos_route_access_witness :
  App {| isAuthenticated := true; userRole := Some WAITER; isTokenValid := true |}
      (at_path "/posAdmin/pos") = Redirects "/" None.
Proof.
  apply (proj1 (proj2 (pos_route_access
                         {| isAuthenticated := true; userRole := Some WAITER;
                            isTokenValid := true |}
                         (at_path "/posAdmin/pos") eq_refl)));
    [reflexivity | reflexivity | discriminate | discriminate].
Defined.

(** X10.  For the four staff roles the root sends an authenticated session
    to the role's home route, and that home route shows a page to that
    session: the redirect ends there. *)
Theorem staff_home_is_reachable (r : Role) (auth : AuthContext) (search hash : string) :
  r <> CUSTOMER ->
  isAuthenticated auth = true -> isTokenValid auth = true -> userRole auth = Some r ->
  App auth {| pathname := "/"; search := search; hash := hash |}
    = Redirects (home_of (Some r)) None /\
  exists p : Page, App auth (at_path (home_of (Some r))) = Shows p.
Proof.
  intros Hc Ha Hv Hr. unfold App. simpl. rewrite Ha, Hv, Hr. simpl.
  split; [reflexivity|].
  destruct r; try contradiction; simpl; rewrite ?Ha, ?Hv, ?Hr; simpl;
    eexists; reflexivity.
Qed.

Lemma staff_home_is_reachable_witness :
  App {| isAuthenticated := true; userRole := Some POS_ADMIN; isTokenValid := true |}
      (at_path "/") = Redirects "/posAdmin/pos" None.
Proof.
  apply (proj1 (staff_home_is_reachable POS_ADMIN
                  {| isAuthenticated := true; userRole := Some POS_ADMIN;
                     isTokenValid := true |} "" ""
                  ltac:(discriminate) eq_refl eq_refl eq_refl)).
Defined.

(** X11.  A signed-in customer, and a signed-in user without a role, have
    no landing page: the root redirects them to [/menu], for which the route
    table has no entry, and the catch-all redirects [/menu] back to the
    root. *)
Theorem customer_home_redirects_in_a_cycle (auth : AuthContext) :
  isAuthenticated auth = true -> isTokenValid auth = true ->
  userRole auth = Some CUSTOMER \/ userRole auth = None ->
  App auth (at_path "/") = Redirects "/menu" None /\
  App auth (at_path "/menu") = Redirects "/" None /\
  find_route "/menu" routes = None.
Proof.
  intros Ha Hv Hr. unfold App. simpl. rewrite Ha, Hv. simpl.
  destruct Hr as [-> | ->]; repeat split.
Qed.

Lemma customer_home_redirects_in_a_cycle_witness :
  App {| isAuthenticated := true; userRole := Some CUSTOMER; isTokenValid := true |}
      (at_path "/") = Redirects "/menu" None /\
  App {| isAuthenticated := true; userRole := Some CUSTOMER; isTokenValid := true |}
      (at_path "/menu") = Redirects "/" None.
Proof.
  pose proof (customer_home_redirects_in_a_cycle
                {| isAuthenticated := true; userRole := Some CUSTOMER; isTokenValid := true |}
                eq_refl eq_refl (or_introl eq_refl)) as H.
  exact (conj (proj1 H) (proj1 (proj2 H))).
Defined.

(** X12.  [AuthGuard] checks the session and not the role: every admin page
    is shown to any authenticated session with a valid token, whatever its
    role, a customer's or none included. *)
Theorem admin_pages_ignore_role (auth : AuthContext) (location : Location) :
  isAuthenticated auth = true -> isTokenValid auth = true ->
  In (pathname location) admin_page_paths ->
  exists p : Page,
    App auth location = Shows p /\
    forall role : option Role,
      App {| isAuthenticated := true; userRole := role; isTokenValid := true |} location
      = Shows p.
Proof.
  intros Ha Hv Hin. unfold App.
  destruct location as [path search hash]. simpl in Hin.
  cbn [pathname].
  repeat (destruct Hin as [<-|Hin];
          [cbn; rewrite Ha, Hv; cbn; eexists; split; reflexivity|]).
  destruct Hin.
Qed.

Lemma admin_pages_ignore_role_witness :
  exists p : Page,
    App {| isAuthenticated := true; userRole := Some CUSTOMER; isTokenValid := true |}
        (at_path "/admin/settings") = Shows p /\
    forall role : option Role,
      App {| isAuthenticated := true; userRole := role; isTokenValid := true |}
          (at_path "/admin/settings") = Shows p.
Proof.
  apply (admin_pages_ignore_role
           {| isAuthenticated := true; userRole := Some CUSTOMER; isTokenValid := true |}
           (at_path "/admin/settings") eq_refl eq_refl).
  simpl. tauto.
Defined.

(** X13.  The guest routes (login, signup, onboarding).  A visitor without
    a session is shown the page.  A session with a valid token and a role is
    never shown a guest page: it is redirected to the role's home.  A
    session without a role is shown the onboarding and the login page, and
    with a valid token is sent from signup to onboarding. *)
Theorem guest_routes_by_session (auth : AuthContext) (location : Location) :
  In (pathname location) guest_paths ->
  (isAuthenticated auth = false -> exists p : Page, App auth location = Shows p) /\
  (forall r : Role,
      isAuthenticated auth = true -> isTokenValid auth = true -> userRole auth = Some r ->
      App auth location = Redirects (home_of (Some r)) None) /\
  (isAuthenticated auth = true -> userRole auth = None ->
   (pathname location = "/login" -> App auth location = Shows LoginPage) /\
   (pathname location = "/newUser" -> App auth location = Shows NewUserPage) /\
   (pathname location = "/signup" -> isTokenValid auth = true ->
    App auth location = Redirects "/newUser" None)).
Proof.
  intros Hin. unfold App.
  destruct location as [path search hash]. simpl in Hin. cbn [pathname].
  destruct auth as [a role v]. cbn [isAuthenticated userRole isTokenValid].
  destruct Hin as [<-|[<-|[<-|[]]]]; cbn;
    (split; [intros ->; cbn; eexists; reflexivity|]);
    (split; [intros r -> -> ->; destruct r; reflexivity|]);
    intros -> ->; cbn;
    repeat split; try discriminate; try reflexivity; intros _ ->; reflexivity.
Qed.

Lemma guest_routes_by_session_witness :
  App {| isAuthenticated := true; userRole := Some CHEF; isTokenValid := true |}
      (at_path "/login") = Redirects "/chef" None.
Proof.
  apply (proj1 (proj2 (guest_routes_by_session
                         {| isAuthenticated := true; userRole := Some CHEF;
                            isTokenValid := true |}
                         (at_path "/login") ltac:(simpl; tauto)))
           CHEF eq_refl eq_refl eq_refl).
Defined.

Lemma append_empty (s : string) : s +:+ "" = s.
Proof.
  induction s as [|c s IH]; [reflexivity|].
  change (String c (s +:+ "") = String c s). now rewrite IH.
Qed.

Lemma append_char_assoc (s : string) (c : ascii) (t : string) :
  (s +:+ String c "") +:+ t = s +:+ String c t.
Proof.
  induction s as [|c' s IH]; [reflexivity|].
  change (String c' ((s +:+ String c "") +:+ t) = String c' (s +:+ String c t)).
  now rewrite IH.
Qed.

Lemma split_from_no_separator (sep : ascii) (s current : string) :
  includes_char sep s = false -> split_from sep s current = [current +:+ s].
Proof.
  revert current. induction s as [|c s IH]; intros current; simpl.
  - intros _. now rewrite append_empty.
  - intros H. apply orb_false_iff in H as [Hc Hs]. rewrite Hc.
    rewrite (IH _ Hs). now rewrite append_char_assoc.
Qed.

(** X14.  The QR route is public: for a table segment that is not empty and
    holds no slash, [/table/<segment>] shows the customer menu page to any
    visitor, signed in or not. *)
Theorem table_route_is_public (auth : AuthContext) (segment search hash : string) :
  segment <> "" ->
  includes_char "/" segment = false ->
  App auth {| pathname := "/table/" +:+ segment; search := search; hash := hash |}
  = Shows MenuCardPage.
Proof.
  intros Hne Hs. unfold App, route_element. cbn [pathname].
  assert (Hf : find_route ("/table/" +:+ segment) routes = None) by reflexivity.
  rewrite Hf.
  assert (Ht : is_table_path ("/table/" +:+ segment) = true).
  { unfold is_table_path, split.
    change ("/table/" +:+ segment)
      with (String "/" (String "t" (String "a" (String "b" (String "l"
             (String "e" (String "/" segment))))))).
    cbn [split_from Ascii.eqb Bool.eqb].
    rewrite (split_from_no_separator "/" segment "" Hs).
    change ("" +:+ segment) with segment.
    apply String.eqb_neq in Hne. rewrite Hne. reflexivity. }
  rewrite Ht. reflexivity.
Qed.

Lemma table_route_is_public_witness :
  App anonymous (at_path "/table/7") = Shows MenuCardPage.
Proof.
  apply (table_route_is_public anonymous "7" "" "").
  - discriminate.
  - reflexivity.
Defined.

(** ** Price helpers *)

(** X15.  [hasHalfPortionPrice] throws exactly on a missing item
    ([undefined] or [null]), where [getItemPrice] answers 0.  When it
    answers false, asking for the half portion costs what the full portion
    costs; when it answers true, the half-portion price is read from
    [halfPrice] alone and the full price is never consulted. *)
Theorem half_portion_price_rules (js : Platform) (item : Js.value) :
  (hasHalfPortionPrice item = None <-> item = Js.Undefined \/ item = Js.Null) /\
  (hasHalfPortionPrice item = Some false ->
   getItemPrice js item true = getItemPrice js item false) /\
  (hasHalfPortionPrice item = Some true ->
   getItemPrice js item true = price_or_zero js (Js.opt_get item "halfPrice")).
Proof.
  split; [|split].
  - unfold hasHalfPortionPrice.
    destruct item; simpl; split; intros H; try discriminate; try tauto;
      destruct H as [H|H]; discriminate.
  - unfold hasHalfPortionPrice. intros H.
    destruct (Js.falsy item) eqn:Hf.
    + unfold getItemPrice. now rewrite Hf.
    + rewrite !getItemPrice_truthy by exact Hf.
      rewrite (get_of_truthy item "halfPrice" Hf) in H. simpl in H.
      injection H as ->. reflexivity.
  - unfold hasHalfPortionPrice. intros H.
    assert (Hf : Js.falsy item = false).
    { destruct item; simpl in *; try discriminate; reflexivity. }
    rewrite getItemPrice_truthy by exact Hf.
    rewrite (get_of_truthy item "halfPrice" Hf) in H. simpl in H.
    injection H as ->. reflexivity.
Qed.

(** X16.  The price helper of the item administration page agrees with the
    shared [getItemPrice] asked for a full portion, on every item. *)
Theorem ItemPage_price_is_full_portion_price (js : Platform) (item : Js.value) :
  ItemPage_getItemPrice js item = getItemPrice js item false.
Proof.
  unfold ItemPage_getItemPrice, getItemPrice.
  destruct (Js.falsy item); reflexivity.
Qed.

(** ** POS payment form and page *)

(** X17.  The tax percentage of the payment form is never [NaN]: from the
    initial form, whatever sequence of values the tax input reports, the
    stored percentage is a number; an input that does not parse stores 0 and
    a number is stored as it is. *)
Theorem tax_percentage_is_never_NaN (values : list float) :
  let typed := fold_left (fun st value => OrderDetails.handleTaxChange value st) values
                 OrderDetails.initial in
  PrimFloat.is_nan (OrderDetails.taxPercentage typed) = false /\
  (forall value : float,
      OrderDetails.taxPercentage (OrderDetails.handleTaxChange value typed)
      = if PrimFloat.is_nan value then 0%float else value) /\
  OrderDetails.processing typed = false /\
  OrderDetails.paymentMethod typed = cash.
Proof.
  cbv zeta. induction values as [|value values IH] using rev_ind.
  - repeat split.
  - rewrite fold_left_app. simpl.
    destruct IH as (_ & _ & Hp & Hm).
    split; [|split; [reflexivity|split; assumption]].
    destruct (PrimFloat.is_nan value) eqn:Hv; [reflexivity|exact Hv].
Qed.


(** X18.  Completing a payment on the POS page.  When the server accepts,
    the order is gone from the awaiting-payment list whatever the list held,
    the receipt panel shows the order the server returned (not a local
    record), one status-change event is emitted for that order with status
    COMPLETED, the other orders stay, and the promise resolves.  When the
    call fails the page state is untouched, nothing is emitted and the
    promise is rejected with the error of the call. *)
Theorem complete_order_outcomes (apiClient : Transport CompleteOrderResult)
    (orderId : Z) (details : PaymentDetails.t) (st : PosPage.State) :
  let result := PosPage.handleCompleteOrder apiClient orderId details st in
  match apiClient POST "/orders/pos/complete" (CompleteOrderBody orderId details) with
  | Resolved served =>
      some_id orderId (PosPage.deliveredOrders (fst (fst result))) = false /\
      PosPage.panel (fst (fst result)) = PosPage.Receipt (result_order served) /\
      snd (fst result)
        = [emit_status_change (with_status COMPLETED (result_order served))] /\
      (forall i : Z, i <> orderId ->
         count_id i (PosPage.deliveredOrders (fst (fst result)))
         = count_id i (PosPage.deliveredOrders st)) /\
      snd result = Resolved tt
  | Rejected err =>
      result = (st, [], Rejected err)
  end.
Proof.
  cbv zeta. unfold PosPage.handleCompleteOrder.
  destruct (ordersApi_rethrowing_operations) as (_ & _ & _ & _ & _ & Hc).
  rewrite Hc.
  destruct (apiClient POST "/orders/pos/complete" (CompleteOrderBody orderId details))
    as [served|err]; [|reflexivity].
  cbn [fst snd PosPage.deliveredOrders PosPage.setDeliveredOrders PosPage.showReceipt].
  split; [apply some_id_filter_out|].
  split; [reflexivity|]. split; [reflexivity|]. split; [|reflexivity].
  intros i Hi. unfold count_id, filter_out_id.
  induction (PosPage.deliveredOrders st) as [|o l IH]; simpl; [reflexivity|].
  destruct (WaiterOrder.id o =? orderId)%Z eqn:E; simpl.
  - apply Z.eqb_eq in E. assert (E' : (WaiterOrder.id o =? i)%Z = false)
      by (apply Z.eqb_neq; congruence).
    rewrite E'. exact IH.
  - destruct (WaiterOrder.id o =? i)%Z; simpl; now rewrite IH.
Qed.



(** ** Delivered-orders list: selection and keyboard *)

Lemma head_filter_out_id (i : Z) (l : list WaiterOrder.t) (o : WaiterOrder.t) :
  head (filter_out_id i l) = Some o -> In o l /\ WaiterOrder.id o <> i.
Proof.
  unfold filter_out_id. intros H.
  assert (Hin : In o (List.filter (fun order => negb (WaiterOrder.id order =? i)%Z) l)).
  { destruct (List.filter _ l); [discriminate|]. injection H as ->. now left. }
  apply filter_In in Hin as [Hin Hne]. split; [exact Hin|].
  apply negb_true_iff, Z.eqb_neq in Hne. exact Hne.
Qed.

(** X20.  Selection follows removal.  In the recent tab, when the selected
    order is completed the list takes it out and asks the parent to select
    the first remaining order, or nothing when none remains; what it asks to
    select is never the removed order; the focus goes to the first row, or
    to -1 on an empty list.  When another order is selected, or in the
    all-orders tab, no selection is requested. *)
Theorem selection_follows_removal (p : DeliveredOrdersList.Props) (u : WaiterOrder.t)
    (st : DeliveredOrdersList.State) :
  WaiterOrder.status u = COMPLETED ->
  let result := DeliveredOrdersList.handleOrderUpdate p u st in
  let remaining := filter_out_id (WaiterOrder.id u) (DeliveredOrdersList.orders st) in
  (String.eqb (DeliveredOrdersList.tabValue st) "all" = false ->
   DeliveredOrdersList.selected_is p (WaiterOrder.id u) = true ->
   DeliveredOrdersList.orders (fst result) = remaining /\
   head (snd result) = Some (DeliveredOrdersList.onOrderSelect (head remaining)) /\
   (forall o : WaiterOrder.t,
       head remaining = Some o ->
       In o (DeliveredOrdersList.orders (fst result))
       /\ WaiterOrder.id o <> WaiterOrder.id u) /\
   (head remaining = None <-> DeliveredOrdersList.orders (fst result) = []) /\
   DeliveredOrdersList.currentFocusIndex (fst result)
     = match DeliveredOrdersList.orders (fst result) with
       | [] => (-1)%Z
       | _ :: _ => 0%Z
       end) /\
  (String.eqb (DeliveredOrdersList.tabValue st) "all" = true
   \/ DeliveredOrdersList.selected_is p (WaiterOrder.id u) = false ->
   forall o : option WaiterOrder.t,
     ~ In (DeliveredOrdersList.onOrderSelect o) (snd result)).
Proof.
  intros Hs. cbv zeta. unfold DeliveredOrdersList.handleOrderUpdate. rewrite Hs.
  split.
  - intros -> ->. cbn [fst snd DeliveredOrdersList.orders
                       DeliveredOrdersList.currentFocusIndex].
    split; [reflexivity|]. split; [reflexivity|].
    split.
    { intros o Ho. pose proof (head_filter_out_id _ _ _ Ho) as [_ Hne].
      split; [|exact Hne].
      destruct (filter_out_id (WaiterOrder.id u) (DeliveredOrdersList.orders st));
        [discriminate|]. injection Ho as ->. now left. }
    split.
    { destruct (filter_out_id (WaiterOrder.id u) (DeliveredOrdersList.orders st));
        simpl; split; intros; congruence. }
    destruct (filter_out_id (WaiterOrder.id u) (DeliveredOrdersList.orders st)); reflexivity.
  - intros Hcase o.
    destruct (String.eqb (DeliveredOrdersList.tabValue st) "all") eqn:Ht.
    + cbn [snd]. unfold DeliveredOrdersList.when.
      destruct (DeliveredOrdersList.has_onOrdersUpdate p),
        (DeliveredOrdersList.selected_is p (WaiterOrder.id u)
         && DeliveredOrdersList.has_onOrderCompletionChange p);
        simpl; intuition discriminate.
    + destruct Hcase as [Hc|Hc]; [discriminate|]. rewrite Hc. cbn [snd].
      unfold DeliveredOrdersList.when.
      destruct (DeliveredOrdersList.has_onOrdersUpdate p); simpl; intuition discriminate.
Qed.

Lemma selection_follows_removal_witness :
  head (snd (DeliveredOrdersList.handleOrderUpdate
               {| DeliveredOrdersList.selectedOrderId := Some 99%Z;
                  DeliveredOrdersList.has_onOrdersUpdate := true;
                  DeliveredOrdersList.has_onOrderCompletionChange := false |}
               (with_status COMPLETED order99)
               {| DeliveredOrdersList.orders := [order99; sample_order 100 DELIVERED []];
                  DeliveredOrdersList.tabValue := "recent";
                  DeliveredOrdersList.currentFocusIndex := 0 |}))
  = Some (DeliveredOrdersList.onOrderSelect (Some (sample_order 100 DELIVERED []))).
Proof.
  exact (proj1 (proj2 (proj1 (selection_follows_removal
    {| DeliveredOrdersList.selectedOrderId := Some 99%Z;
       DeliveredOrdersList.has_onOrdersUpdate := true;
       DeliveredOrdersList.has_onOrderCompletionChange := false |}
    (with_status COMPLETED order99)
    {| DeliveredOrdersList.orders := [order99; sample_order 100 DELIVERED []];
       DeliveredOrdersList.tabValue := "recent";
       DeliveredOrdersList.currentFocusIndex := 0 |}
    eq_refl) eq_refl eq_refl))).
Defined.

Lemma at_index_in_range (l : list WaiterOrder.t) (i : Z) :
  (0 <= i < Z.of_nat (length l))%Z -> exists o, DeliveredOrdersList.at_index l i = Some o.
Proof.
  intros [H0 Hn]. unfold DeliveredOrdersList.at_index.
  assert (E : (i <? 0)%Z = false) by (apply Z.ltb_ge; lia). rewrite E.
  destruct (nth_error l (Z.to_nat i)) as [o|] eqn:Hnth; [now exists o|].
  apply nth_error_None in Hnth. lia.
Qed.

(** X21.  Arrow keys in the delivered-orders list.  On a list that is not
    empty, with the focus on a row or on none (-1), an arrow key moves the
    focus to a row of the list and selects the order of that row; down from
    the last row wraps to the first, up from the first row (or from none)
    wraps to the last; and from a row, down then up, or up then down, comes
    back to the row.  On an empty list the keys do nothing. *)
Theorem arrow_keys_stay_on_the_list (p : DeliveredOrdersList.Props)
    (displayedOrders : list WaiterOrder.t) (st : DeliveredOrdersList.State) :
  let n := Z.of_nat (length displayedOrders) in
  let focus_after key s :=
    DeliveredOrdersList.currentFocusIndex
      (fst (DeliveredOrdersList.handleArrowKey p key displayedOrders s)) in
  (displayedOrders = [] ->
   forall key, DeliveredOrdersList.handleArrowKey p key displayedOrders st = (st, [])) /\
  (displayedOrders <> [] ->
   (-1 <= DeliveredOrdersList.currentFocusIndex st < n)%Z ->
   (forall key,
       (0 <= focus_after key st < n)%Z /\
       exists o : WaiterOrder.t,
         DeliveredOrdersList.at_index displayedOrders (focus_after key st) = Some o /\
         head (snd (DeliveredOrdersList.handleArrowKey p key displayedOrders st))
         = Some (DeliveredOrdersList.onOrderSelect (Some o))) /\
   (DeliveredOrdersList.currentFocusIndex st = n - 1 ->
    focus_after DeliveredOrdersList.ArrowDown st = 0)%Z /\
   (DeliveredOrdersList.currentFocusIndex st <= 0 ->
    focus_after DeliveredOrdersList.ArrowUp st = n - 1)%Z /\
   ((0 <= DeliveredOrdersList.currentFocusIndex st)%Z ->
    focus_after DeliveredOrdersList.ArrowUp
      (fst (DeliveredOrdersList.handleArrowKey p DeliveredOrdersList.ArrowDown
              displayedOrders st))
    = DeliveredOrdersList.currentFocusIndex st /\
    focus_after DeliveredOrdersList.ArrowDown
      (fst (DeliveredOrdersList.handleArrowKey p DeliveredOrdersList.ArrowUp
              displayedOrders st))
    = DeliveredOrdersList.currentFocusIndex st)).
Proof.
  cbv zeta. split.
  - intros -> key. reflexivity.
  - intros Hne Hc.
    assert (Hlen : (length displayedOrders =? 0)%nat = false).
    { apply Nat.eqb_neq. destruct displayedOrders; [contradiction|discriminate]. }
    assert (Hpos : (0 < Z.of_nat (length displayedOrders))%Z).
    { apply Nat.eqb_neq in Hlen. lia. }
    unfold DeliveredOrdersList.handleArrowKey. rewrite Hlen.
    cbn [fst snd DeliveredOrdersList.currentFocusIndex
         DeliveredOrdersList.setCurrentFocusIndex].
    set (c := DeliveredOrdersList.currentFocusIndex st) in *.
    set (n := Z.of_nat (length displayedOrders)) in *.
    split; [|split; [|split]].
    + intros key.
      assert (Hr : (0 <= match key with
                         | DeliveredOrdersList.ArrowDown => if c <? n - 1 then c + 1 else 0
                         | DeliveredOrdersList.ArrowUp => if 0 <? c then c - 1 else n - 1
                         end < n)%Z).
      { destruct key.
        - destruct (c <? n - 1)%Z eqn:E; [apply Z.ltb_lt in E|]; lia.
        - destruct (0 <? c)%Z eqn:E; [apply Z.ltb_lt in E|]; lia. }
      split; [exact Hr|].
      destruct (at_index_in_range displayedOrders _ Hr) as [o Ho].
      exists o. split; [exact Ho|].
      unfold DeliveredOrdersList.handleOrderSelect. now rewrite Ho.
    + intros ->. assert (E : (n - 1 <? n - 1)%Z = false) by (apply Z.ltb_irrefl).
      now rewrite E.
    + intros H0. assert (E : (0 <? c)%Z = false) by (apply Z.ltb_ge; lia).
      now rewrite E.
    + intros H0. split.
      * destruct (c <? n - 1)%Z eqn:E.
        -- apply Z.ltb_lt in E.
           assert (E' : (0 <? c + 1)%Z = true) by (apply Z.ltb_lt; lia).
           rewrite E'. lia.
        -- apply Z.ltb_ge in E. simpl. lia.
      * destruct (0 <? c)%Z eqn:E.
        -- apply Z.ltb_lt in E.
           assert (E' : (c - 1 <? n - 1)%Z = true) by (apply Z.ltb_lt; lia).
           rewrite E'. lia.
        -- apply Z.ltb_ge in E.
           assert (E' : (n - 1 <? n - 1)%Z = false) by (apply Z.ltb_irrefl).
           rewrite E'. lia.
Qed.

(** ** Chef preparing view: ready orders and elapsed time *)

(** X22.  Marking an order ready takes every record of that order out of
    the chef's working set, a duplicate left by a repeated realtime event
    included, and keeps the records of all other orders; so after a
    "preparing" event for an order, marking it ready gives the same working
    set as marking it ready without the event. *)
Theorem mark_ready_removes_every_copy (orderId : Z)
    (prevOrders : list ChefOrdersPage.DisplayOrder) :
  ChefOrdersPage.occurrences orderId (ChefOrdersPage.markOrderAsReady orderId prevOrders)
    = 0%nat /\
  (forall i : Z, i <> orderId ->
     List.filter (fun d => ChefOrdersPage.display_id d =? i)%Z
       (ChefOrdersPage.markOrderAsReady orderId prevOrders)
     = List.filter (fun d => ChefOrdersPage.display_id d =? i)%Z prevOrders) /\
  (forall newOrder : WaiterOrder.t,
     WaiterOrder.id newOrder = orderId ->
     ChefOrdersPage.markOrderAsReady orderId
       (ChefOrdersPage.on_status_preparing newOrder
          (ChefOrdersPage.on_status_preparing newOrder prevOrders))
     = ChefOrdersPage.markOrderAsReady orderId prevOrders).
Proof.
  unfold ChefOrdersPage.occurrences, ChefOrdersPage.markOrderAsReady.
  split; [|split].
  - induction prevOrders as [|d l IH]; simpl; [reflexivity|].
    destruct (ChefOrdersPage.display_id d =? orderId)%Z eqn:E; simpl; [exact IH|].
    rewrite E. exact IH.
  - intros i Hi. induction prevOrders as [|d l IH]; simpl; [reflexivity|].
    destruct (ChefOrdersPage.display_id d =? orderId)%Z eqn:E; simpl.
    + apply Z.eqb_eq in E.
      assert (E' : (ChefOrdersPage.display_id d =? i)%Z = false)
        by (apply Z.eqb_neq; congruence).
      rewrite E'. exact IH.
    + destruct (ChefOrdersPage.display_id d =? i)%Z; now rewrite IH.
  - intros newOrder <-.
    assert (H : forall l,
               List.filter (fun d => negb (ChefOrdersPage.display_id d
                                           =? WaiterOrder.id newOrder)%Z)
                 (ChefOrdersPage.on_status_preparing newOrder l)
               = List.filter (fun d => negb (ChefOrdersPage.display_id d
                                             =? WaiterOrder.id newOrder)%Z) l).
    { intros l. unfold ChefOrdersPage.on_status_preparing.
      rewrite List.filter_app. cbn [List.filter].
      change (ChefOrdersPage.display_id (ChefOrdersPage.displayOfEvent newOrder))
        with (WaiterOrder.id newOrder).
      rewrite Z.eqb_refl. cbn [negb]. apply app_nil_r. }
    now rewrite !H.
Qed.

(** X23.  Elapsed time of an order, for valid timestamps.  Anything under a
    minute, a timestamp in the future included, reads "Just now"; from two
    minutes up to an hour the whole minutes are shown; from an hour on the
    whole hours elapsed are shown (the floor of the milliseconds over
    3 600 000), in the singular for one hour. *)
Theorem formatTimeElapsed_units (orderTime now : Z) :
  let elapsed := (now - orderTime)%Z in
  ((elapsed < 60000)%Z -> ChefOrdersPage.formatTimeElapsed orderTime now = "Just now") /\
  ((60000 <= elapsed < 120000)%Z ->
   ChefOrdersPage.formatTimeElapsed orderTime now = "1 minute ago") /\
  ((120000 <= elapsed < 3600000)%Z ->
   ChefOrdersPage.formatTimeElapsed orderTime now
   = pretty (elapsed / 60000)%Z +:+ " minutes ago") /\
  ((3600000 <= elapsed < 7200000)%Z ->
   ChefOrdersPage.formatTimeElapsed orderTime now = "1 hour ago") /\
  ((7200000 <= elapsed)%Z ->
   ChefOrdersPage.formatTimeElapsed orderTime now
   = pretty (elapsed / 3600000)%Z +:+ " hours ago").
Proof.
  cbv zeta. unfold ChefOrdersPage.formatTimeElapsed.
  change (1000 * 60)%Z with 60000%Z.
  set (e := (now - orderTime)%Z).
  set (m := (e / 60000)%Z).
  assert (Hm : (60000 * m <= e < 60000 * m + 60000)%Z).
  { subst m. pose proof (Z.div_mod e 60000 ltac:(lia)).
    pose proof (Z.mod_pos_bound e 60000 ltac:(lia)). lia. }
  assert (Hh : (m / 60 = e / 3600000)%Z).
  { subst m. rewrite Z.div_div by lia. reflexivity. }
  set (h := (m / 60)%Z) in *.
  assert (Hhm : (60 * h <= m < 60 * h + 60)%Z).
  { subst h. pose proof (Z.div_mod m 60 ltac:(lia)).
    pose proof (Z.mod_pos_bound m 60 ltac:(lia)). lia. }
  repeat split; intros He.
  - assert (E : (m <? 1)%Z = true) by (apply Z.ltb_lt; lia). now rewrite E.
  - assert (E : (m <? 1)%Z = false) by (apply Z.ltb_ge; lia).
    assert (E1 : (m =? 1)%Z = true) by (apply Z.eqb_eq; lia).
    now rewrite E, E1.
  - assert (E : (m <? 1)%Z = false) by (apply Z.ltb_ge; lia).
    assert (E1 : (m =? 1)%Z = false) by (apply Z.eqb_neq; lia).
    assert (E2 : (m <? 60)%Z = true) by (apply Z.ltb_lt; lia).
    now rewrite E, E1, E2.
  - assert (E : (m <? 1)%Z = false) by (apply Z.ltb_ge; lia).
    assert (E1 : (m =? 1)%Z = false) by (apply Z.eqb_neq; lia).
    assert (E2 : (m <? 60)%Z = false) by (apply Z.ltb_ge; lia).
    assert (E3 : (h =? 1)%Z = true) by (apply Z.eqb_eq; lia).
    now rewrite E, E1, E2, E3.
  - assert (E : (m <? 1)%Z = false) by (apply Z.ltb_ge; lia).
    assert (E1 : (m =? 1)%Z = false) by (apply Z.eqb_neq; lia).
    assert (E2 : (m <? 60)%Z = false) by (apply Z.ltb_ge; lia).
    assert (E3 : (h =? 1)%Z = false) by (apply Z.eqb_neq; lia).
    rewrite E, E1, E2, E3. now rewrite <- Hh.
Qed.

(** ** Category administration: selection and batch deletion *)

Lemma includes_In (id : Z) (l : list Z) :
  CategoryAdmin.includes id l = true <-> In id l.
Proof.
  unfold CategoryAdmin.includes. rewrite existsb_exists. split.
  - intros (x & Hx & E). apply Z.eqb_eq in E. now subst.
  - intros H. exists id. split; [exact H|apply Z.eqb_refl].
Qed.

(** X24.  A click on a card's checkbox toggles that category in the
    selection and no other: afterwards the category is selected exactly when
    it was not before, every other id is selected exactly when it was, and a
    selection without repeated ids stays without repeated ids, so that a
    batch delete sends one request per selected category. *)
Theorem checkbox_click_toggles_selection (category : Category.t) (prev : list Z) :
  CategoryAdmin.includes (Category.id category) (CategoryAdmin.clickCheckbox category prev)
    = negb (CategoryAdmin.includes (Category.id category) prev) /\
  (forall id : Z, id <> Category.id category ->
     CategoryAdmin.includes id (CategoryAdmin.clickCheckbox category prev)
     = CategoryAdmin.includes id prev) /\
  (List.NoDup prev -> List.NoDup (CategoryAdmin.clickCheckbox category prev)).
Proof.
  unfold CategoryAdmin.clickCheckbox, CategoryAdmin.handleSelectCategory.
  set (c := Category.id category).
  destruct (CategoryAdmin.includes c prev) eqn:E; cbn [negb].
  - split; [|split].
    + apply not_true_iff_false. rewrite includes_In, filter_In.
      intros [_ H]. now rewrite Z.eqb_refl in H.
    + intros id Hid. apply eq_true_iff_eq. rewrite !includes_In, filter_In.
      split; [tauto|]. intros H. split; [exact H|].
      apply negb_true_iff, Z.eqb_neq. exact Hid.
    + apply List.NoDup_filter.
  - split; [|split].
    + apply includes_In, in_or_app. right. now left.
    + intros id Hid. apply eq_true_iff_eq. rewrite !includes_In, in_app_iff.
      simpl. split; [|tauto]. intros [H|[H|[]]]; [exact H|congruence].
    + intros Hnd. apply List.NoDup_app.
      * exact Hnd.
      * apply List.NoDup_cons; [simpl; tauto|apply List.NoDup_nil].
      * simpl. intros x Hx [<-|[]]. apply includes_In in Hx. congruence.
Qed.

Lemma all_resolved_false {A} (outcomes : list (Outcome A)) :
  CategoryAdmin.all_resolved outcomes = false <->
  exists e, In (Rejected e) outcomes.
Proof.
  unfold CategoryAdmin.all_resolved. induction outcomes as [|o l IH]; simpl.
  - split; [discriminate|intros [e []]].
  - destruct o as [v|e]; simpl.
    + rewrite IH. split; intros [e H]; exists e; [now right|].
      destruct H as [H|H]; [discriminate|exact H].
    + split; [intros _; exists e; now left|reflexivity].
Qed.

(** X25.  Batch deletion of categories.  With a selection that is not
    empty, one delete request is issued per selected id whether or not any
    of them fails.  If any request fails, the page state is left exactly as
    it was, the categories whose request succeeded included; if all succeed,
    the list keeps exactly the categories that were not selected, the
    selection is emptied and the dialog closed. *)
Theorem batch_delete_all_or_nothing (server : Z -> Outcome unit) (st : CategoryAdmin.State) :
  CategoryAdmin.selectedCategories st <> [] ->
  let result := CategoryAdmin.batchDelete server st in
  snd result = CategoryAdmin.selectedCategories st /\
  ((exists (id : Z) (e : AxiosError),
       In id (CategoryAdmin.selectedCategories st) /\ server id = Rejected e) ->
   fst result = st) /\
  ((forall id : Z, In id (CategoryAdmin.selectedCategories st) -> server id = Resolved tt) ->
   CategoryAdmin.selectedCategories (fst result) = [] /\
   CategoryAdmin.batchDeleteDialogOpen (fst result) = false /\
   CategoryAdmin.menuItems (fst result) = CategoryAdmin.menuItems st /\
   forall cat : Category.t,
     In cat (CategoryAdmin.categories (fst result)) <->
     In cat (CategoryAdmin.categories st)
     /\ ~ In (Category.id cat) (CategoryAdmin.selectedCategories st)).
Proof.
  intros Hne. cbv zeta. unfold CategoryAdmin.batchDelete.
  assert (Hlen : (length (CategoryAdmin.selectedCategories st) =? 0)%nat = false).
  { apply Nat.eqb_neq. destruct (CategoryAdmin.selectedCategories st);
      [contradiction|discriminate]. }
  rewrite Hlen.
  destruct (CategoryAdmin.all_resolved (map server (CategoryAdmin.selectedCategories st)))
    eqn:Hall.
  - split; [reflexivity|]. split.
    + intros (id & e & Hin & Hs). exfalso.
      assert (CategoryAdmin.all_resolved
                (map server (CategoryAdmin.selectedCategories st)) = false).
      { apply all_resolved_false. exists e. rewrite <- Hs. now apply in_map. }
      congruence.
    + intros _. cbn [fst CategoryAdmin.selectedCategories
                     CategoryAdmin.batchDeleteDialogOpen CategoryAdmin.menuItems
                     CategoryAdmin.categories].
      split; [reflexivity|]. split; [reflexivity|]. split; [reflexivity|].
      intros cat. rewrite filter_In. split.
      * intros [Hin Hb]. split; [exact Hin|].
        apply negb_true_iff in Hb. intros Hs. apply includes_In in Hs. congruence.
      * intros [Hin Hsel]. split; [exact Hin|].
        apply negb_true_iff, not_true_iff_false. now rewrite includes_In.
  - split; [reflexivity|]. split; [reflexivity|].
    intros Hok. exfalso. apply all_resolved_false in Hall as [e He].
    apply in_map_iff in He as (id & Hs & Hin). rewrite (Hok id Hin) in Hs. discriminate.
Qed.

Lemma batch_delete_all_or_nothing_witness :
  snd (CategoryAdmin.batchDelete (fun _ => Rejected network_down) batch_delete_open) = [1%Z] /\
  fst (CategoryAdmin.batchDelete (fun _ => Rejected network_down) batch_delete_open)
  = batch_delete_open.
Proof.
  pose proof (batch_delete_all_or_nothing (fun _ => Rejected network_down) batch_delete_open
                ltac:(discriminate)) as (Hreq & Hfail & _).
  split; [exact Hreq|].
  apply Hfail. exists 1%Z, network_down. split; [now left|reflexivity].
Defined.

(** ** Waiter dashboard: tabs and new orders *)

(** X26.  On the waiter dashboard a tab shows an order exactly when it is
    the tab whose counter a status change to the order's status raises
    ([statusToTab]); so every order is in at most one of the four tabs, a
    cancelled order is in none, and after a local status update the order's
    records show in the tab of the new status. *)
Theorem waiter_tabs_match_statusToTab :
  (forall (d : ChefOrdersPage.DisplayOrder) (tab : string),
      In tab WaiterPage.tabs ->
      (WaiterPage.tab_shows tab d = true <->
       WaiterPage.statusToTab (WaiterOrder.status (ChefOrdersPage.order d)) = tab)) /\
  (forall (d : ChefOrdersPage.DisplayOrder) (tab : string),
      WaiterOrder.status (ChefOrdersPage.order d) = CANCELLED ->
      In tab WaiterPage.tabs -> WaiterPage.tab_shows tab d = false) /\
  (forall (orderId : Z) (newStatus : OrderStatus)
          (prevOrders : list ChefOrdersPage.DisplayOrder) (d : ChefOrdersPage.DisplayOrder),
      In d (WaiterPage.handleUpdateOrderStatus orderId newStatus prevOrders) ->
      ChefOrdersPage.display_id d = orderId ->
      WaiterPage.tab_shows (WaiterPage.statusToTab newStatus) d = true).
Proof.
  split; [|split].
  - intros d tab Hin. unfold WaiterPage.tab_shows.
    simpl in Hin.
    destruct Hin as [<-|[<-|[<-|[<-|[]]]]];
      destruct (WaiterOrder.status (ChefOrdersPage.order d)); simpl;
      split; intros H; try reflexivity; discriminate H.
  - intros d tab Hs Hin. unfold WaiterPage.tab_shows. rewrite Hs.
    simpl in Hin. destruct Hin as [<-|[<-|[<-|[<-|[]]]]]; reflexivity.
  - intros orderId newStatus prevOrders d Hin Hid.
    unfold WaiterPage.handleUpdateOrderStatus in Hin.
    apply in_map_iff in Hin as (x & Hx & _).
    destruct (ChefOrdersPage.display_id x =? orderId)%Z eqn:E.
    + subst d. unfold WaiterPage.tab_shows. simpl. now destruct newStatus.
    + subst d. apply Z.eqb_neq in E. contradiction.
Qed.




(** ** Receipt *)

Lemma receipt_subtotal_is_form_subtotal (order : WaiterOrder.t) :
  ReceiptGenerator.calculateSubtotal order = OrderDetails.calculateSubtotal order.
Proof. reflexivity. Qed.

(** X28.  From the payment form to the receipt.  For an order that comes
    back carrying the payment details the form submitted, the receipt
    recomputes the same subtotal, and shows the submitted tax amount
    whenever that amount is a number other than zero.  A submitted tax of
    zero is read as missing: the receipt then shows the stored total minus
    the subtotal when the total is larger, and zero otherwise. *)
Theorem receipt_shows_submitted_tax (st : OrderDetails.State) (order : WaiterOrder.t) :
  let details := OrderDetails.buildPaymentDetails st order in
  let paid := with_paymentDetails details (with_status COMPLETED order) in
  let subtotal := OrderDetails.calculateSubtotal order in
  let tax := OrderDetails.calculateTaxAmount st order in
  ReceiptGenerator.calculateSubtotal paid = subtotal /\
  (ReceiptGenerator.truthy tax = true -> ReceiptGenerator.getTaxAmount paid = tax) /\
  (ReceiptGenerator.truthy tax = false ->
   ReceiptGenerator.getTaxAmount paid
   = if (subtotal <? WaiterOrder.total order)%float
     then (WaiterOrder.total order - subtotal)%float else 0%float).
Proof.
  cbv zeta. split; [reflexivity|].
  unfold ReceiptGenerator.getTaxAmount, ReceiptGenerator.recorded_tax.
  cbn [with_paymentDetails with_status WaiterOrder.paymentDetails WaiterOrder.total
       OrderDetails.buildPaymentDetails PaymentDetails.taxAmount mbind option_bind].
  split; intros ->; reflexivity.
Qed.

(** Order 99 paid at 5 percent shows tax 10 on the receipt; paid at 0
    percent while its stored total is 210, it shows tax 10 as well. *)
Example receipt_tax_examples :
  ReceiptGenerator.getTaxAmount
    (with_paymentDetails (OrderDetails.buildPaymentDetails OrderDetails.initial order99)
       (with_status COMPLETED order99)) = 10%float /\
  ReceiptGenerator.getTaxAmount
    (with_paymentDetails
       (OrderDetails.buildPaymentDetails
          (OrderDetails.handleTaxChange 0%float OrderDetails.initial) order99)
       (WaiterOrder.mk 99 7 None COMPLETED 210%float (WaiterOrder.orderItems order99)
          "2025-01-01T10:00:00Z" "2025-01-01T10:30:00Z" None)) = 10%float.
Proof. split; vm_compute; reflexivity. Qed.

(** X29.  New orders in the waiter order table.  Its new-order listener
    always adds a record, so the outcome depends on the order of events: for
    an order the table does not hold yet, new-order followed by a status
    change leaves one record of it, while the status change followed by
    new-order leaves two. *)
Theorem waiter_table_event_order_matters (o u : WaiterOrder.t)
    (prevOrders : list ChefOrdersPage.DisplayOrder) :
  ChefOrdersPage.occurrences (WaiterOrder.id o)
    (WaiterOrdersPage.on_new_order o prevOrders)
  = S (ChefOrdersPage.occurrences (WaiterOrder.id o) prevOrders) /\
  (WaiterOrder.id u = WaiterOrder.id o ->
   ChefOrdersPage.occurrences (WaiterOrder.id o) prevOrders = 0%nat ->
   ChefOrdersPage.occurrences (WaiterOrder.id o)
     (WaiterOrdersPage.on_status_change u (WaiterOrdersPage.on_new_order o prevOrders))
   = 1%nat /\
   ChefOrdersPage.occurrences (WaiterOrder.id o)
     (WaiterOrdersPage.on_new_order o (WaiterOrdersPage.on_status_change u prevOrders))
   = 2%nat).
Proof.
  assert (Hadd : forall (x : WaiterOrder.t) l,
             ChefOrdersPage.occurrences (WaiterOrder.id x)
               (WaiterOrdersPage.on_new_order x l)
             = S (ChefOrdersPage.occurrences (WaiterOrder.id x) l)).
  { intros x l. unfold WaiterOrdersPage.on_new_order, ChefOrdersPage.occurrences.
    cbn [List.filter].
    change (ChefOrdersPage.display_id (WaiterOrdersPage.displayOfEvent x))
      with (WaiterOrder.id x).
    now rewrite Z.eqb_refl. }
  split; [apply Hadd|].
  intros Hid H0.
  assert (Hone : forall l,
             (ChefOrdersPage.occurrences (WaiterOrder.id u) l <= 1)%nat ->
             ChefOrdersPage.occurrences (WaiterOrder.id u)
               (WaiterOrdersPage.on_status_change u l) = 1%nat)
    by (intros l; apply (waiter_event_keeps_one u l)).
  rewrite <- Hid in *. split.
  - apply Hone. rewrite Hid, Hadd, <- Hid, H0. lia.
  - rewrite Hid, Hadd, <- Hid. f_equal. apply Hone. rewrite H0. lia.
Qed.

Lemma waiter_table_event_order_matters_witness :
  ChefOrdersPage.occurrences 42
    (WaiterOrdersPage.on_status_change (with_status READY order42)
       (WaiterOrdersPage.on_new_order order42 [])) = 1%nat /\
  ChefOrdersPage.occurrences 42
    (WaiterOrdersPage.on_new_order order42
       (WaiterOrdersPage.on_status_change (with_status READY order42) [])) = 2%nat.
Proof.
  exact (proj2 (waiter_table_event_order_matters order42 (with_status READY order42) [])
           eq_refl eq_refl).
Defined.
